(** * ng-packagr: the entry point resolver

    A shallow embedding of [src/lib/ng-package/entry-point/entry-point.ts]
    (class [NgEntryPoint]) together with the small part of the JavaScript
    semantics its accessors rely on, and the properties of the accessors.

    - JavaScript values are the values a parsed [package.json] or
      [ng-package.json] can hold: [undefined], [null], booleans, numbers,
      strings, arrays and plain objects.  Numbers are integers (the class
      itself only ever produces array lengths).  Strings are sequences of
      bytes; every character the class inspects (["@"], ["/"], ["."] and the
      backslash) is a single unit in both encodings.
    - An accessor either returns normally or raises; this is the
      [Completion] type, threaded through the getters with a bind.
    - Node's [path] module is an interface ([PathModule]); the accessors are
      written against the interface, and the POSIX implementation is given
      as an instance for the concrete scenarios. *)

From Stdlib Require Import String Ascii List Bool ZArith Lia.
From Stdlib Require Import DecimalString.
Import ListNotations.
Open Scope list_scope.
Open Scope string_scope.

(** ** Completions: normal return or a raised error *)

Inductive JsError : Type :=
| TypeError.

Inductive Completion (A : Type) : Type :=
| Normal (a : A)
| Throw (e : JsError).

Arguments Normal {A} a.
Arguments Throw {A} e.

Definition bind {A B : Type} (c : Completion A) (k : A -> Completion B)
  : Completion B :=
  match c with
  | Normal a => k a
  | Throw e => Throw e
  end.

Notation "x <- c ;; k" := (bind c (fun x => k))
  (at level 61, c at next level, right associativity).

Definition returns {A : Type} (c : Completion A) : Prop :=
  exists a, c = Normal a.

Definition throws {A : Type} (c : Completion A) : Prop :=
  exists e, c = Throw e.

(** ** JavaScript values *)

#[warnings="-register-all"] Inductive JsValue : Type :=
| JUndefined
| JNull
| JBool (b : bool)
| JNum (n : Z)
| JStr (s : string)
| JArr (elems : list JsValue)
| JObj (props : list (string * JsValue)).

(** The own properties of a plain object, each key once; a lookup takes the
    first binding of a key. *)
Definition JsObject : Type := list (string * JsValue).

(** ** Strings *)

(** [s.split(c)] for a one-character separator. *)
Fixpoint split (c : ascii) (s : string) : list string :=
  match s with
  | EmptyString => [EmptyString]
  | String a rest =>
      if Ascii.eqb a c then EmptyString :: split c rest
      else match split c rest with
           | [] => [String a EmptyString]
           | h :: t => String a h :: t
           end
  end.

(** [parts.join(sep)]. *)
Definition join (sep : string) (parts : list string) : string :=
  String.concat sep parts.

(** [s.startsWith(c)] for a one-character prefix. *)
Definition startsWith (s : string) (c : ascii) : bool :=
  match s with
  | String a _ => Ascii.eqb a c
  | EmptyString => false
  end.

(** [s.substring(n)]. *)
Fixpoint substring (n : nat) (s : string) : string :=
  match n, s with
  | O, _ => s
  | S n', String _ rest => substring n' rest
  | S _, EmptyString => EmptyString
  end.

(** Replace every occurrence of one character by another. *)
Fixpoint replaceAll (from to : ascii) (s : string) : string :=
  match s with
  | EmptyString => EmptyString
  | String a rest =>
      String (if Ascii.eqb a from then to else a) (replaceAll from to rest)
  end.

Fixpoint contains (c : ascii) (s : string) : bool :=
  match s with
  | EmptyString => false
  | String a rest => Ascii.eqb a c || contains c rest
  end.

Definition slash : ascii := "/"%char.
Definition dot : ascii := "."%char.
Definition at_sign : ascii := "@"%char.
Definition backslash : ascii := Ascii.ascii_of_nat 92.

Definition string_of_nat (n : nat) : string :=
  NilEmpty.string_of_uint (Nat.to_uint n).

Definition string_of_Z (z : Z) : string :=
  NilEmpty.string_of_int (Z.to_int z).

(** ** The operations of the language the accessors use *)

(** [typeof value]. *)
Definition typeof (value : JsValue) : string :=
  match value with
  | JUndefined => "undefined"
  | JNull => "object"
  | JBool _ => "boolean"
  | JNum _ => "number"
  | JStr _ => "string"
  | JArr _ => "object"
  | JObj _ => "object"
  end.

(** [ToBoolean]: what [||] and [if] test. *)
Definition truthy (value : JsValue) : bool :=
  match value with
  | JUndefined | JNull => false
  | JBool b => b
  | JNum n => negb (n =? 0)%Z
  | JStr s => negb (s =? "")
  | JArr _ | JObj _ => true
  end.

Fixpoint lookup (key : string) (props : JsObject) : option JsValue :=
  match props with
  | [] => None
  | (k, v) :: rest => if k =? key then Some v else lookup key rest
  end.

Definition has_key (key : string) (props : JsObject) : bool :=
  match lookup key props with
  | Some _ => true
  | None => false
  end.

(** The position named by a property key of an array or string of length
    [len]: the key must be the canonical decimal form of an index below
    [len]. *)
Fixpoint index_below (len : nat) (key : string) : option nat :=
  match len with
  | O => None
  | S n => if string_of_nat n =? key then Some n else index_below n key
  end.

(** [value.hasOwnProperty(key)].  The method itself is looked up on the
    receiver first: that raises on [undefined] and [null], and an own
    property called [hasOwnProperty] (data, hence not callable) shadows the
    inherited method.  The class calls it behind a [typeof] test, so only
    [null], arrays and objects ever reach it. *)
Definition hasOwnProperty (value : JsValue) (key : string) : Completion bool :=
  match value with
  | JUndefined | JNull => Throw TypeError
  | JBool _ | JNum _ => Normal false
  | JStr s =>
      Normal ((key =? "length")
              || match index_below (String.length s) key with
                 | Some _ => true
                 | None => false
                 end)
  | JArr elems =>
      Normal ((key =? "length")
              || match index_below (List.length elems) key with
                 | Some _ => true
                 | None => false
                 end)
  | JObj props =>
      if has_key "hasOwnProperty" props then Throw TypeError
      else Normal (has_key key props)
  end.

(** [value[key]] for a key that is an own property of an object or array
    ([undefined] in every other case the class reaches). *)
Definition member (value : JsValue) (key : string) : JsValue :=
  match value with
  | JObj props =>
      match lookup key props with
      | Some v => v
      | None => JUndefined
      end
  | JArr elems =>
      if key =? "length" then JNum (Z.of_nat (List.length elems))
      else match index_below (List.length elems) key with
           | Some i => nth i elems JUndefined
           | None => JUndefined
           end
  | _ => JUndefined
  end.

(** [ToString], as a template literal applies it to an interpolated value.
    A number is printed in plain decimal, which is what JavaScript does for
    the integers of magnitude below 10^21; larger ones and fractions are
    outside the model.  An array prints its elements separated by commas, [undefined] and [null]
    elements as the empty string.  A plain object prints as
    ["[object Object]"] unless it has an own (data) property [toString]:
    then neither [toString] nor [valueOf] gives a primitive and the
    conversion raises. *)
Fixpoint to_string (value : JsValue) : Completion string :=
  match value with
  | JUndefined => Normal "undefined"
  | JNull => Normal "null"
  | JBool true => Normal "true"
  | JBool false => Normal "false"
  | JNum n => Normal (string_of_Z n)
  | JStr s => Normal s
  | JArr elems =>
      ss <- (fix elements (l : list JsValue) : Completion (list string) :=
               match l with
               | [] => Normal []
               | v :: rest =>
                   s <- match v with
                        | JUndefined | JNull => Normal ""
                        | _ => to_string v
                        end ;;
                   ss <- elements rest ;;
                   Normal (s :: ss)
               end) elems ;;
      Normal (join "," ss)
  | JObj props =>
      if has_key "toString" props then Throw TypeError
      else Normal "[object Object]"
  end.

(** [a || b]: the right operand is evaluated only when the left one is
    falsy. *)
Definition or_else (a b : Completion JsValue) : Completion JsValue :=
  v <- a ;;
  if truthy v then Normal v else b.

(** ** Node's [path] module *)

(** The four functions of [path] the class calls, on arguments already
    known to be strings.  Which implementation is behind them depends on
    the host ([path.posix] or [path.win32]). *)
Class PathModule : Type := {
  path_resolve : list string -> string;
  path_join : list string -> string;
  path_relative : string -> string -> string;
  path_isAbsolute : string -> bool
}.

(** Every function of [path] validates its arguments: a value that is not
    a string raises a [TypeError] ([ERR_INVALID_ARG_TYPE]). *)
Definition validateString (value : JsValue) : Completion string :=
  match value with
  | JStr s => Normal s
  | _ => Throw TypeError
  end.

(** *** The POSIX implementation *)

Module Posix.

(** [normalizeString]: drop empty and ["."] segments; [".."] removes the
    segment before it, or is kept when there is none to remove and the
    path is allowed to climb above its root.  [acc] is the result so far,
    last segment first. *)
Fixpoint normalizeSegments (allowAboveRoot : bool) (acc segs : list string)
  : list string :=
  match segs with
  | [] => rev acc
  | seg :: rest =>
      if (seg =? "") || (seg =? ".") then
        normalizeSegments allowAboveRoot acc rest
      else if seg =? ".." then
        match acc with
        | top :: acc' =>
            if top =? ".." then
              normalizeSegments allowAboveRoot
                (if allowAboveRoot then ".." :: acc else acc) rest
            else normalizeSegments allowAboveRoot acc' rest
        | [] =>
            normalizeSegments allowAboveRoot
              (if allowAboveRoot then [".."] else []) rest
        end
      else normalizeSegments allowAboveRoot (seg :: acc) rest
  end.

Definition normalizeString (path : string) (allowAboveRoot : bool) : string :=
  join "/" (normalizeSegments allowAboveRoot [] (split slash path)).

Definition isAbsolute (path : string) : bool := startsWith path slash.

Definition endsWithSlash (path : string) : bool :=
  match rev (split slash path) with
  | last :: _ :: _ => last =? ""
  | _ => false
  end.

(** The loop of [resolve]: from the last argument to the first, and then
    the working directory, prefix the non-empty ones until an absolute
    one has been taken. *)
Fixpoint resolveLoop (fromRight : list string) (resolvedPath : string)
  : string * bool :=
  match fromRight with
  | [] => (resolvedPath, false)
  | path :: rest =>
      if path =? "" then resolveLoop rest resolvedPath
      else if isAbsolute path then (path ++ "/" ++ resolvedPath, true)
      else resolveLoop rest (path ++ "/" ++ resolvedPath)
  end.

Definition resolve (cwd : string) (args : list string) : string :=
  let '(resolvedPath, resolvedAbsolute) :=
    resolveLoop (rev args ++ [cwd])%list "" in
  let normalized := normalizeString resolvedPath (negb resolvedAbsolute) in
  if resolvedAbsolute then "/" ++ normalized
  else if normalized =? "" then "." else normalized.

Definition normalize (path : string) : string :=
  if path =? "" then "."
  else
    let absolute := isAbsolute path in
    let trailingSeparator := endsWithSlash path in
    let normalized := normalizeString path (negb absolute) in
    if normalized =? "" then
      if absolute then "/" else if trailingSeparator then "./" else "."
    else
      let normalized :=
        if trailingSeparator then normalized ++ "/" else normalized in
      if absolute then "/" ++ normalized else normalized.

Definition joinPaths (args : list string) : string :=
  match filter (fun arg => negb (arg =? "")) args with
  | [] => "."
  | parts => normalize (join "/" parts)
  end.

Fixpoint dropCommon (from to : list string) : list string * list string :=
  match from, to with
  | f :: from', t :: to' =>
      if f =? t then dropCommon from' to' else (from, to)
  | _, _ => (from, to)
  end.

Definition segments (path : string) : list string :=
  filter (fun seg => negb (seg =? "")) (split slash path).

(** [relative]: resolve both paths, leave the segments they share, climb
    out of what is left of [from] and descend what is left of [to]. *)
Definition relative (cwd : string) (from to : string) : string :=
  if from =? to then ""
  else
    let from := resolve cwd [from] in
    let to := resolve cwd [to] in
    if from =? to then ""
    else
      let '(up, down) := dropCommon (segments from) (segments to) in
      join "/" (map (fun _ => "..") up ++ down)%list.

End Posix.

(** [path] on a POSIX host whose working directory is [cwd]. *)
Definition posix (cwd : string) : PathModule := {|
  path_resolve := Posix.resolve cwd;
  path_join := Posix.joinPaths;
  path_relative := Posix.relative cwd;
  path_isAbsolute := Posix.isAbsolute
|}.

(** ** [ensureUnixPath] *)

(** Modelled from the spec: [ensureUnixPath] lives in [src/lib/utils/path.ts],
    which is not among the sources at hand.  The specification says of the
    module identifier that it is built "with all separators normalized to
    forward slash": every backslash, the separator of the other host
    convention, becomes a forward slash and nothing else changes. *)
Definition ensureUnixPath (path : string) : string :=
  replaceAll backslash slash path.

(** ** The entry point *)

(** The constructor arguments of [NgEntryPoint]: the values of the entry
    point's [package.json], the values of its [ng-package.json] (or of the
    [ngPackage] option), the absolute directory of the entry point, and the
    parent entry point, if any. *)
#[warnings="-register-all"] Inductive NgEntryPoint : Type :=
| mkNgEntryPoint (packageJson : JsObject) (ngPackageJson : JsValue)
                 (basePath : string) (parent : option NgEntryPoint).

Definition packageJson (e : NgEntryPoint) : JsObject :=
  match e with mkNgEntryPoint pj _ _ _ => pj end.

Definition ngPackageJson (e : NgEntryPoint) : JsValue :=
  match e with mkNgEntryPoint _ cfg _ _ => cfg end.

Definition basePath (e : NgEntryPoint) : string :=
  match e with mkNgEntryPoint _ _ base _ => base end.

Definition parent (e : NgEntryPoint) : option NgEntryPoint :=
  match e with mkNgEntryPoint _ _ _ par => par end.

(** A list of output absolute paths for various formats. *)
Record DestinationFiles : Type := mkDestinationFiles {
  declarations : string;
  metadata : string;
  fesm2015 : string;
  esm2015 : string;
  umd : string;
  umdMinified : string
}.

(** The loop of [$get]: [value] is the value reached so far and [parts]
    the segments still to consume. *)
Fixpoint get_loop (value : JsValue) (parts : list string)
  : Completion JsValue :=
  match parts with
  | [] => Normal value
  | key :: rest =>
      if typeof value =? "object" then
        own <- hasOwnProperty value key ;;
        if own then get_loop (member value key) rest
        else Normal JUndefined
      else Normal JUndefined
  end.

(** [$get(key)]. *)
Definition dollar_get (e : NgEntryPoint) (key : string) : Completion JsValue :=
  get_loop (ngPackageJson e) (split dot key).

(** [packageJson[key]]. *)
Definition packageJson_at (e : NgEntryPoint) (key : string) : JsValue :=
  member (JObj (packageJson e)) key.

Definition entryFile (e : NgEntryPoint) : Completion JsValue :=
  dollar_get e "lib.entryFile".

Definition cssUrl (e : NgEntryPoint) : Completion JsValue :=
  dollar_get e "lib.cssUrl".

Definition umdModuleIds (e : NgEntryPoint) : Completion JsValue :=
  dollar_get e "lib.umdModuleIds".

(** Whether or not the entrypoint is secondary. *)
Definition isSecondaryEntryPoint (e : NgEntryPoint) : bool :=
  match parent e with
  | Some _ => true
  | None => false
  end.

(** Enables the ["sideEffects": false] flag in [package.json]: the flag is
    [false] unless the manifest sets it. *)
Definition sideEffects (e : NgEntryPoint) : JsValue :=
  let value := packageJson_at e "sideEffects" in
  if truthy value then value else JBool false.

Section Accessors.

Context {host : PathModule}.

(** Absolute file path of the entry point's source code entry file. *)
Definition entryFilePath (e : NgEntryPoint) : Completion string :=
  file <- entryFile e ;;
  file <- validateString file ;;
  Normal (path_resolve [basePath e; file]).

(** Absolute directory path of the library output directory. *)
Fixpoint libraryDestinationPath (e : NgEntryPoint) : Completion string :=
  match e with
  | mkNgEntryPoint _ _ _ (Some p) => libraryDestinationPath p
  | mkNgEntryPoint _ _ base None =>
      dest <- dollar_get e "dest" ;;
      dest <- validateString dest ;;
      Normal (path_resolve [base; dest])
  end.

(** The entry source path relative to the parent entry point source
    path. *)
Definition sourceRelativePath (e : NgEntryPoint) : string :=
  match parent e with
  | Some p => path_relative (basePath p) (basePath e)
  | None => ""
  end.

(** Absolute directory path of the entrypoint [package.json]. *)
Definition destinationPath (e : NgEntryPoint) : Completion string :=
  match parent e with
  | Some _ =>
      libDest <- libraryDestinationPath e ;;
      Normal (path_join [libDest; sourceRelativePath e])
  | None => libraryDestinationPath e
  end.

(** The module ID, the identifier used in import statements. *)
Fixpoint moduleId (e : NgEntryPoint) : Completion JsValue :=
  match e with
  | mkNgEntryPoint _ _ _ (Some p) =>
      parentId <- moduleId p ;;
      parentId <- to_string parentId ;;
      Normal (JStr (ensureUnixPath (parentId ++ "/" ++ sourceRelativePath e)))
  | mkNgEntryPoint _ _ _ None => Normal (packageJson_at e "name")
  end.

(** [flattenModuleId(separator = '.')]: both [startsWith] and [split] are
    methods of strings only, so a module ID that is not a string raises. *)
Definition flattenModuleId (e : NgEntryPoint) (separator : option string)
  : Completion string :=
  let separator :=
    match separator with
    | Some sep => sep
    | None => "."
    end in
  id <- moduleId e ;;
  id <- validateString id ;;
  if startsWith id at_sign then
    id <- moduleId e ;;
    id <- validateString id ;;
    Normal (join separator (split slash (substring 1 id)))
  else
    id <- moduleId e ;;
    id <- validateString id ;;
    Normal (join separator (split slash id)).

Definition flatModuleFile (e : NgEntryPoint) : Completion JsValue :=
  or_else (dollar_get e "lib.flatModuleFile")
          (flat <- flattenModuleId e (Some "-") ;; Normal (JStr flat)).

(** The UMD module ID registers a module on the old-fashioned JavaScript
    global scope. *)
Definition umdId (e : NgEntryPoint) : Completion JsValue :=
  or_else (dollar_get e "lib.umdId")
          (flat <- flattenModuleId e None ;; Normal (JStr flat)).

(** The AMD ID reflects a named module that is distributed in the UMD
    bundles. *)
Definition amdId (e : NgEntryPoint) : Completion JsValue :=
  or_else (dollar_get e "lib.amdId") (moduleId e).

(** [includePaths.map(...)]: only an array has [map]; every element goes
    through [path.isAbsolute], which accepts strings only. *)
Fixpoint resolveIncludePaths (base : string) (includePaths : list JsValue)
  : Completion (list string) :=
  match includePaths with
  | [] => Normal []
  | includePath :: rest =>
      includePath <- validateString includePath ;;
      let resolved :=
        if path_isAbsolute includePath then includePath
        else path_resolve [base; includePath] in
      others <- resolveIncludePaths base rest ;;
      Normal (resolved :: others)
  end.

Definition styleIncludePaths (e : NgEntryPoint) : Completion (list string) :=
  includePaths <- or_else (dollar_get e "lib.styleIncludePaths")
                          (Normal (JArr [])) ;;
  match includePaths with
  | JArr elems => resolveIncludePaths (basePath e) elems
  | _ => Throw TypeError
  end.

(** The template literals interpolate the module file name, which is
    whatever [flatModuleFile] returned. *)
Definition destinationFiles (e : NgEntryPoint) : Completion DestinationFiles :=
  libDest <- libraryDestinationPath e ;;
  entryPointDest <- destinationPath e ;;
  moduleFileName <- flatModuleFile e ;;
  moduleFileName <- to_string moduleFileName ;;
  Normal {|
    metadata := path_join [entryPointDest; moduleFileName ++ ".metadata.json"];
    declarations := path_join [entryPointDest; moduleFileName ++ ".d.ts"];
    esm2015 := path_join [libDest; "esm2015"; sourceRelativePath e;
                          moduleFileName ++ ".js"];
    fesm2015 := path_join [libDest; "fesm2015"; moduleFileName ++ ".js"];
    umd := path_join [libDest; "bundles"; moduleFileName ++ ".umd.js"];
    umdMinified := path_join [libDest; "bundles"; moduleFileName ++ ".umd.min.js"]
  |}.

(** The parentless ancestor of an entry point. *)
Fixpoint root (e : NgEntryPoint) : NgEntryPoint :=
  match e with
  | mkNgEntryPoint _ _ _ (Some p) => root p
  | mkNgEntryPoint _ _ _ None => e
  end.

End Accessors.

(** ** The scenarios of the specification *)

Module Scenario.

Definition primary : NgEntryPoint :=
  mkNgEntryPoint
    [("name", JStr "@acme/widgets")]
    (JObj [("dest", JStr "dist");
           ("lib", JObj [("entryFile", JStr "index.ts")])])
    "/lib"
    None.

Definition secondary : NgEntryPoint :=
  mkNgEntryPoint
    []
    (JObj [("lib", JObj [("entryFile", JStr "index.ts")])])
    "/lib/testing"
    (Some primary).

End Scenario.

(** ** Entry points used as concrete inputs *)

Module Examples.

(** An entry point whose manifest and configuration are both empty. *)
Definition bare : NgEntryPoint :=
  mkNgEntryPoint [] (JObj []) "/lib" None.

(** A configuration whose [lib] option is [null]. *)
Definition nullLib : NgEntryPoint :=
  mkNgEntryPoint [("name", JStr "pkg")] (JObj [("lib", JNull)]) "/lib" None.

(** The three overrides set to the empty string. *)
Definition emptyOverrides : NgEntryPoint :=
  mkNgEntryPoint
    [("name", JStr "@scope/pkg")]
    (JObj [("lib", JObj [("flatModuleFile", JStr "");
                         ("umdId", JStr "");
                         ("amdId", JStr "")])])
    "/lib"
    None.

(** The three overrides set, and no [name] to derive a default from. *)
Definition overridden : NgEntryPoint :=
  mkNgEntryPoint
    []
    (JObj [("lib", JObj [("flatModuleFile", JStr "bundle");
                         ("umdId", JStr "ng.bundle");
                         ("amdId", JStr "my/bundle")])])
    "/lib"
    None.

Definition scoped : NgEntryPoint :=
  mkNgEntryPoint [("name", JStr "@scope/pkg/sub")] (JObj []) "/lib" None.

Definition unscoped : NgEntryPoint :=
  mkNgEntryPoint [("name", JStr "pkg/sub")] (JObj []) "/lib" None.

Definition emptySideEffects : NgEntryPoint :=
  mkNgEntryPoint [("name", JStr "pkg"); ("sideEffects", JArr [])]
                 (JObj []) "/lib" None.

End Examples.

(** ** A configuration [$get] can walk without raising *)

(** No [null] anywhere and no object with an own property called
    [hasOwnProperty]. *)
Fixpoint tame (value : JsValue) : bool :=
  match value with
  | JNull => false
  | JArr elems => forallb tame elems
  | JObj props =>
      negb (has_key "hasOwnProperty" props)
      && forallb (fun kv => tame (snd kv)) props
  | _ => true
  end.

(** Objects and primitives only: [tame] and without arrays. *)
Fixpoint plain (value : JsValue) : bool :=
  match value with
  | JNull | JArr _ => false
  | JObj props =>
      negb (has_key "hasOwnProperty" props)
      && forallb (fun kv => plain (snd kv)) props
  | _ => true
  end.

(** The lookup in the words of the specification: descend one segment at a
    time; an absent segment, or a value that is not a mapping, gives the
    absent value; otherwise the value reached. *)
Fixpoint descend (value : JsValue) (parts : list string) : JsValue :=
  match parts with
  | [] => value
  | key :: rest =>
      match value with
      | JObj props =>
          match lookup key props with
          | Some v => descend v rest
          | None => JUndefined
          end
      | _ => JUndefined
      end
  end.

(** ** Further concrete inputs *)

Module MoreExamples.

(** Style include paths, one relative and one absolute. *)
Definition withIncludePaths : NgEntryPoint :=
  mkNgEntryPoint
    [("name", JStr "pkg")]
    (JObj [("dest", JStr "dist");
           ("lib", JObj [("entryFile", JStr "index.ts");
                         ("styleIncludePaths",
                          JArr [JStr "styles"; JStr "/shared/styles"])])])
    "/lib"
    None.

(** A manifest without a [name], and an entry point below it. *)
Definition nameless : NgEntryPoint :=
  mkNgEntryPoint [] (JObj [("dest", JStr "dist")]) "/lib" None.

Definition belowNameless : NgEntryPoint :=
  mkNgEntryPoint [] (JObj []) "/lib/testing" (Some nameless).

(** An entry point two levels below the primary one of the scenario. *)
Definition nested : NgEntryPoint :=
  mkNgEntryPoint [] (JObj []) "/lib/testing/deep" (Some Scenario.secondary).

End MoreExamples.

(** * Properties *)

(** ** Induction along the parent chain *)

Lemma NgEntryPoint_chain_ind (P : NgEntryPoint -> Prop) :
  (forall pj cfg base, P (mkNgEntryPoint pj cfg base None)) ->
  (forall pj cfg base p, P p -> P (mkNgEntryPoint pj cfg base (Some p))) ->
  forall e, P e.
Proof.
  intros Hroot Hchild. fix IH 1.
  intros [pj cfg base [p|]].
  - apply Hchild, IH.
  - apply Hroot.
Qed.

(** ** Completions *)

Lemma returns_Normal {A : Type} (a : A) : returns (Normal a).
Proof. now exists a. Qed.

Lemma throws_Throw {A : Type} (e : JsError) : throws (@Throw A e).
Proof. now exists e. Qed.

Lemma returns_not_throws {A : Type} (c : Completion A) :
  returns c -> ~ throws c.
Proof. intros [a ->] [e He]. discriminate. Qed.

Lemma bind_returns {A B : Type} (c : Completion A) (k : A -> Completion B) :
  returns (bind c k) <-> exists a, c = Normal a /\ returns (k a).
Proof.
  destruct c as [a|e]; simpl; split.
  - intros H. now exists a.
  - intros [a' [[= <-] H]]. exact H.
  - intros [b H]. discriminate.
  - intros [a [H _]]. discriminate.
Qed.

Lemma validateString_returns (v : JsValue) :
  returns (validateString v) <-> exists s, v = JStr s.
Proof.
  destruct v; simpl; split; intros [x H]; try discriminate;
    eauto using returns_Normal.
Qed.

(** ** Strings *)

Lemma split_nonempty (c : ascii) (s : string) : split c s <> [].
Proof.
  induction s as [|a s IH]; simpl; [discriminate|].
  destruct (Ascii.eqb a c); [discriminate|].
  destruct (split c s); [contradiction|discriminate].
Qed.

Lemma contains_append (c : ascii) (s t : string) :
  contains c (s ++ t) = contains c s || contains c t.
Proof.
  induction s as [|a s IH]; simpl; [reflexivity|].
  now rewrite IH, orb_assoc.
Qed.

Lemma replaceAll_removes (from to : ascii) (s : string) :
  from <> to -> contains from (replaceAll from to s) = false.
Proof.
  intros Hne. induction s as [|a s IH]; simpl; [reflexivity|].
  rewrite IH, orb_false_r.
  destruct (Ascii.eqb a from) eqn:E.
  - apply Ascii.eqb_neq. congruence.
  - exact E.
Qed.

Lemma replaceAll_absent (from to : ascii) (s : string) :
  contains from s = false -> replaceAll from to s = s.
Proof.
  induction s as [|a s IH]; simpl; [reflexivity|].
  intros H. apply orb_false_elim in H as [Ha Hs].
  now rewrite Ha, IH.
Qed.

Lemma ensureUnixPath_no_backslash (path : string) :
  contains backslash (ensureUnixPath path) = false.
Proof. apply replaceAll_removes. discriminate. Qed.

Lemma ensureUnixPath_unix (path : string) :
  contains backslash path = false -> ensureUnixPath path = path.
Proof. apply replaceAll_absent. Qed.

(** ** The configuration lookup *)

Lemma index_below_bound (len : nat) (key : string) (i : nat) :
  index_below len key = Some i -> i < len.
Proof.
  induction len as [|n IH]; simpl; [discriminate|].
  destruct (string_of_nat n =? key).
  - intros [= <-]. lia.
  - intros H. apply IH in H. lia.
Qed.

Lemma tame_lookup (props : JsObject) (key : string) (v : JsValue) :
  forallb (fun kv => tame (snd kv)) props = true ->
  lookup key props = Some v -> tame v = true.
Proof.
  induction props as [|[k w] props IH]; simpl; [discriminate|].
  intros H. apply andb_prop in H as [Hw Hrest].
  destruct (k =? key).
  - now intros [= <-].
  - now apply IH.
Qed.

Lemma tame_member (value : JsValue) (key : string) :
  tame value = true -> tame (member value key) = true.
Proof.
  destruct value as [| |b|n|s|elems|props]; simpl; try reflexivity.
  - intros H. destruct (key =? "length"); [reflexivity|].
    destruct (index_below (List.length elems) key) as [i|] eqn:E;
      [|reflexivity].
    apply index_below_bound in E.
    rewrite forallb_forall in H. apply H, nth_In, E.
  - intros H. apply andb_prop in H as [_ H].
    destruct (lookup key props) as [v|] eqn:E; [|reflexivity].
    eapply tame_lookup; eassumption.
Qed.

Lemma tame_hasOwnProperty (value : JsValue) (key : string) :
  tame value = true -> typeof value = "object" ->
  returns (hasOwnProperty value key).
Proof.
  destruct value as [| |b|n|s|elems|props]; simpl; try discriminate.
  - intros _ _. apply returns_Normal.
  - intros H _. apply andb_prop in H as [H _].
    apply negb_true_iff in H. rewrite H. apply returns_Normal.
Qed.

(** On a tame configuration the loop of [$get] returns for every list of
    segments. *)
Lemma get_loop_returns (parts : list string) :
  forall value, tame value = true -> returns (get_loop value parts).
Proof.
  induction parts as [|key rest IH]; intros value Ht; simpl.
  - apply returns_Normal.
  - destruct (typeof value =? "object") eqn:Ety; [|apply returns_Normal].
    apply String.eqb_eq in Ety.
    destruct (tame_hasOwnProperty value key Ht Ety) as [own ->]. simpl.
    destruct own; [|apply returns_Normal].
    apply IH, tame_member, Ht.
Qed.

Lemma plain_lookup (props : JsObject) (key : string) (v : JsValue) :
  forallb (fun kv => plain (snd kv)) props = true ->
  lookup key props = Some v -> plain v = true.
Proof.
  induction props as [|[k w] props IH]; simpl; [discriminate|].
  intros H. apply andb_prop in H as [Hw Hrest].
  destruct (k =? key).
  - now intros [= <-].
  - now apply IH.
Qed.

(** On a configuration of objects and non-null primitives the loop of
    [$get] computes the lookup the specification describes. *)
Lemma get_loop_descend (parts : list string) :
  forall value, plain value = true ->
  get_loop value parts = Normal (descend value parts).
Proof.
  induction parts as [|key rest IH]; intros value Hp; simpl; [reflexivity|].
  destruct value as [| |b|n|s|elems|props]; simpl in *;
    try reflexivity; try discriminate.
  apply andb_prop in Hp as [Hown Hprops].
  apply negb_true_iff in Hown. rewrite Hown. unfold has_key. simpl.
  destruct (lookup key props) as [v|] eqn:E; simpl; [|reflexivity].
  apply IH. eapply plain_lookup; eassumption.
Qed.

(** [typeof null] is ["object"], so the guard of the loop lets [null]
    through to the method call. *)
Lemma get_loop_null (key : string) (rest : list string) :
  get_loop JNull (key :: rest) = Throw TypeError.
Proof. reflexivity. Qed.

(** ** Walking up to the root *)

Section AccessorFacts.

Context {host : PathModule}.

Lemma root_parentless (e : NgEntryPoint) : parent (root e) = None.
Proof.
  induction e as [pj cfg base|pj cfg base p IH] using NgEntryPoint_chain_ind;
    [reflexivity|exact IH].
Qed.

Lemma libraryDestinationPath_root (e : NgEntryPoint) :
  libraryDestinationPath e = libraryDestinationPath (root e).
Proof.
  induction e as [pj cfg base|pj cfg base p IH] using NgEntryPoint_chain_ind;
    [reflexivity|exact IH].
Qed.

Lemma libraryDestinationPath_parentless (e : NgEntryPoint) :
  parent e = None ->
  libraryDestinationPath e =
    (dest <- dollar_get e "dest" ;;
     dest <- validateString dest ;;
     Normal (path_resolve [basePath e; dest])).
Proof. destruct e as [pj cfg base [p|]]; [discriminate|reflexivity]. Qed.

Lemma libraryDestinationPath_unfold (e : NgEntryPoint) :
  libraryDestinationPath e =
    (dest <- dollar_get (root e) "dest" ;;
     dest <- validateString dest ;;
     Normal (path_resolve [basePath (root e); dest])).
Proof.
  rewrite libraryDestinationPath_root.
  apply libraryDestinationPath_parentless, root_parentless.
Qed.

Lemma moduleId_child pj cfg base (p : NgEntryPoint) :
  moduleId (mkNgEntryPoint pj cfg base (Some p)) =
    (parentId <- moduleId p ;;
     parentId <- to_string parentId ;;
     Normal (JStr (ensureUnixPath
                     (parentId ++ "/" ++ path_relative (basePath p) base)))).
Proof. reflexivity. Qed.

(** When the root has a string for a name, every module ID below it is a
    string. *)
Lemma moduleId_string (e : NgEntryPoint) :
  (exists name, packageJson_at (root e) "name" = JStr name) ->
  exists id, moduleId e = Normal (JStr id).
Proof.
  induction e as [pj cfg base|pj cfg base p IH] using NgEntryPoint_chain_ind.
  - intros [name H]. exists name. simpl in *. now rewrite <- H.
  - intros H. destruct (IH H) as [id Hid].
    rewrite moduleId_child, Hid. simpl. eauto.
Qed.

Lemma flattenModuleId_string (e : NgEntryPoint) (id : string)
      (separator : option string) :
  moduleId e = Normal (JStr id) ->
  flattenModuleId e separator =
    Normal (join match separator with Some sep => sep | None => "." end
                 (split slash
                    (if startsWith id at_sign then substring 1 id else id))).
Proof.
  intros H. unfold flattenModuleId. rewrite H. simpl.
  destruct (startsWith id at_sign); reflexivity.
Qed.

Lemma flattenModuleId_not_string (e : NgEntryPoint)
      (separator : option string) :
  (forall id, moduleId e <> Normal (JStr id)) ->
  throws (flattenModuleId e separator).
Proof.
  intros H. unfold flattenModuleId.
  destruct (moduleId e) as [v|err]; simpl; [|apply throws_Throw].
  destruct v; simpl; try apply throws_Throw.
  now contradiction (H s).
Qed.

Lemma or_else_truthy (a b : Completion JsValue) (v : JsValue) :
  a = Normal v -> truthy v = true -> or_else a b = Normal v.
Proof. intros -> H. unfold or_else. simpl. now rewrite H. Qed.

Lemma or_else_falsy (a b : Completion JsValue) (v : JsValue) :
  a = Normal v -> truthy v = false -> or_else a b = b.
Proof. intros -> H. unfold or_else. simpl. now rewrite H. Qed.

Lemma truthy_nonempty (s : string) : s <> "" -> truthy (JStr s) = true.
Proof.
  intros H. simpl. apply negb_true_iff. now apply String.eqb_neq.
Qed.

Lemma destinationPath_returns (e : NgEntryPoint) :
  returns (destinationPath e) <-> returns (libraryDestinationPath e).
Proof.
  unfold destinationPath. destruct (parent e); [|reflexivity].
  destruct (libraryDestinationPath e) as [libDest|err]; simpl; split;
    intros [x H]; try discriminate; apply returns_Normal.
Qed.

Lemma destinationFiles_returns (e : NgEntryPoint) :
  returns (destinationFiles e) <->
  returns (libraryDestinationPath e)
  /\ exists v s, flatModuleFile e = Normal v /\ to_string v = Normal s.
Proof.
  unfold destinationFiles. split.
  - intros H.
    apply bind_returns in H as [libDest [Hlib H]].
    apply bind_returns in H as [entryPointDest [_ H]].
    apply bind_returns in H as [v [Hv H]].
    apply bind_returns in H as [stem [Hs _]].
    split; [rewrite Hlib; apply returns_Normal|].
    exists v, stem. now split.
  - intros [Hlib [v [stem [Hv Hs]]]].
    destruct (proj2 (destinationPath_returns e) Hlib) as [dest ->].
    destruct Hlib as [libDest ->].
    rewrite Hv. simpl. rewrite Hs. apply returns_Normal.
Qed.

End AccessorFacts.

(** ** Failure semantics *)

(** C1, as the specification has it, fails: an entry point with an empty
    manifest and an empty configuration makes [entryFilePath],
    [libraryDestinationPath], [destinationPath], [flatModuleFile], [umdId]
    and [destinationFiles] raise a [TypeError], so it is not the case that
    every accessor returns on every entry point. *)
Lemma accessors_raise_on_bare_entry_point :
  @entryFilePath (posix "/") Examples.bare = Throw TypeError
  /\ @libraryDestinationPath (posix "/") Examples.bare = Throw TypeError
  /\ @destinationPath (posix "/") Examples.bare = Throw TypeError
  /\ @flatModuleFile (posix "/") Examples.bare = Throw TypeError
  /\ @umdId (posix "/") Examples.bare = Throw TypeError
  /\ @destinationFiles (posix "/") Examples.bare = Throw TypeError
  /\ ~ (forall (host : PathModule) (e : NgEntryPoint),
          returns (entryFilePath e)
          /\ returns (libraryDestinationPath e)
          /\ returns (flatModuleFile e)).
Proof.
  repeat split; try reflexivity.
  intros H. destruct (H (posix "/") Examples.bare) as [[p Hp] _].
  discriminate.
Qed.

(** ** Configuration lookup *)

(** C2 at the failing input: with [lib] set to [null], the lookup of
    [lib.entryFile] passes the [typeof] guard and raises a [TypeError] at
    the method call on [null], whatever the rest of the entry point. *)
Theorem dollar_get_null_intermediate_raises
        (pj : JsObject) (base : string) (par : option NgEntryPoint) :
  dollar_get (mkNgEntryPoint pj (JObj [("lib", JNull)]) base par)
             "lib.entryFile"
  = Throw TypeError.
Proof. reflexivity. Qed.

(** ** Module identifiers *)

(** C3: the module ID of an entry point with a parent is the parent's
    module ID, ["/"] and the source-relative path (the relative path from
    the parent's base path to this one), passed through [ensureUnixPath]:
    no backslash is left in it, whatever the host's [path] functions return,
    and nothing changes when there was none.  The module ID of a parentless
    entry point is the [name] of the manifest. *)
Theorem moduleId_composition (host : PathModule) (e : NgEntryPoint) :
  match parent e with
  | Some p =>
      sourceRelativePath e = path_relative (basePath p) (basePath e)
      /\ moduleId e =
           (parentId <- moduleId p ;;
            parentId <- to_string parentId ;;
            Normal (JStr (ensureUnixPath
                            (parentId ++ "/" ++ sourceRelativePath e))))
      /\ (forall parentId, moduleId p = Normal (JStr parentId) ->
          exists id,
            moduleId e = Normal (JStr id)
            /\ id = ensureUnixPath (parentId ++ "/" ++ sourceRelativePath e)
            /\ contains backslash id = false
            /\ (contains backslash
                         (parentId ++ "/" ++ sourceRelativePath e) = false ->
                id = parentId ++ "/" ++ sourceRelativePath e))
  | None => moduleId e = Normal (packageJson_at e "name")
  end.
Proof.
  destruct e as [pj cfg base [p|]]; simpl; [|reflexivity].
  split; [reflexivity|]. split; [reflexivity|].
  intros parentId ->. simpl.
  eexists. split; [reflexivity|]. split; [reflexivity|].
  split; [apply ensureUnixPath_no_backslash|apply ensureUnixPath_unix].
Qed.

Lemma moduleId_composition_witness :
  @moduleId (posix "/") Scenario.primary = Normal (JStr "@acme/widgets")
  /\ @moduleId (posix "/") Scenario.secondary
     = Normal (JStr "@acme/widgets/testing").
Proof.
  split; [reflexivity|].
  destruct (moduleId_composition (posix "/") Scenario.secondary)
    as (_ & _ & H).
  destruct (H "@acme/widgets" eq_refl) as (id & Hid & Heq & _).
  rewrite Hid, Heq. reflexivity.
Defined.

(** C7: [flattenModuleId] drops one leading ["@"] from the module ID when
    there is one and joins the segments between the ["/"] with the
    separator, ["."] when none is given; ["@scope/pkg/sub"] flattened with
    ["-"] is ["scope-pkg-sub"], and ["pkg/sub"] is ["pkg-sub"]. *)
Theorem flattenModuleId_strips_scope
        (host : PathModule) (e : NgEntryPoint) (id : string) :
  moduleId e = Normal (JStr id) ->
  (forall separator,
      flattenModuleId e (Some separator) =
        Normal (join separator
                     (split slash
                        (if startsWith id at_sign then substring 1 id
                         else id))))
  /\ flattenModuleId e None =
       Normal (join "."
                    (split slash
                       (if startsWith id at_sign then substring 1 id
                        else id)))
  /\ (id = "@scope/pkg/sub" ->
      flattenModuleId e (Some "-") = Normal "scope-pkg-sub")
  /\ (id = "pkg/sub" -> flattenModuleId e (Some "-") = Normal "pkg-sub").
Proof.
  intros Hid.
  split; [intros separator;
          apply (flattenModuleId_string e id (Some separator) Hid)|].
  split; [apply (flattenModuleId_string e id None Hid)|].
  split; intros ->; rewrite (flattenModuleId_string e _ (Some "-") Hid);
    reflexivity.
Qed.

Lemma flattenModuleId_strips_scope_witness :
  @moduleId (posix "/") Examples.scoped = Normal (JStr "@scope/pkg/sub")
  /\ @flattenModuleId (posix "/") Examples.scoped (Some "-")
     = Normal "scope-pkg-sub"
  /\ @moduleId (posix "/") Examples.unscoped = Normal (JStr "pkg/sub")
  /\ @flattenModuleId (posix "/") Examples.unscoped (Some "-")
     = Normal "pkg-sub".
Proof.
  split; [reflexivity|]. split.
  - apply (flattenModuleId_strips_scope (posix "/") Examples.scoped
             "@scope/pkg/sub" eq_refl).
    reflexivity.
  - split; [reflexivity|].
    apply (flattenModuleId_strips_scope (posix "/") Examples.unscoped
             "pkg/sub" eq_refl).
    reflexivity.
Defined.

(** ** The primary scenario *)

(** C4: the primary entry point at [/lib] with [dest = "dist"],
    [lib.entryFile = "index.ts"] and the name ["@acme/widgets"], on a POSIX
    host with any working directory. *)
Theorem primary_scenario (cwd : string) :
  @entryFilePath (posix cwd) Scenario.primary = Normal "/lib/index.ts"
  /\ @libraryDestinationPath (posix cwd) Scenario.primary = Normal "/lib/dist"
  /\ @moduleId (posix cwd) Scenario.primary = Normal (JStr "@acme/widgets")
  /\ @flatModuleFile (posix cwd) Scenario.primary
     = Normal (JStr "acme-widgets")
  /\ @umdId (posix cwd) Scenario.primary = Normal (JStr "acme.widgets").
Proof. repeat split; reflexivity. Qed.

(** ** Destinations *)

(** C6: the library destination of any entry point is the [dest] option of
    its parentless ancestor resolved against that ancestor's base path;
    entry points with the same root share it; the configuration (and the
    manifest and base path) of an entry point that has a parent plays no
    part in it.  The destination of a parentless entry point is the library
    destination, that of an entry point with a parent is the library
    destination joined with the source-relative path. *)
Theorem libraryDestinationPath_shared (host : PathModule) (e : NgEntryPoint) :
  parent (root e) = None
  /\ libraryDestinationPath e =
       (dest <- dollar_get (root e) "dest" ;;
        dest <- validateString dest ;;
        Normal (path_resolve [basePath (root e); dest]))
  /\ (forall e', root e' = root e ->
      libraryDestinationPath e' = libraryDestinationPath e)
  /\ (forall pj cfg base pj' cfg' base' p,
      libraryDestinationPath (mkNgEntryPoint pj cfg base (Some p))
      = libraryDestinationPath (mkNgEntryPoint pj' cfg' base' (Some p)))
  /\ (parent e = None -> destinationPath e = libraryDestinationPath e)
  /\ (forall p, parent e = Some p ->
      destinationPath e =
        (libDest <- libraryDestinationPath e ;;
         Normal (path_join [libDest; sourceRelativePath e]))).
Proof.
  split; [apply root_parentless|].
  split; [apply libraryDestinationPath_unfold|].
  split.
  { intros e' Hroot.
    now rewrite (libraryDestinationPath_root e'), Hroot,
      <- libraryDestinationPath_root. }
  split; [reflexivity|].
  unfold destinationPath.
  split; [now intros ->|now intros p ->].
Qed.

Lemma libraryDestinationPath_shared_witness :
  @destinationPath (posix "/") Scenario.primary
  = @libraryDestinationPath (posix "/") Scenario.primary
  /\ @libraryDestinationPath (posix "/") Scenario.secondary
     = @libraryDestinationPath (posix "/") Scenario.primary
  /\ @destinationPath (posix "/") Scenario.secondary
     = Normal "/lib/dist/testing".
Proof.
  destruct (libraryDestinationPath_shared (posix "/") Scenario.primary)
    as (_ & _ & Hshare & _ & Hprimary & _).
  destruct (libraryDestinationPath_shared (posix "/") Scenario.secondary)
    as (_ & _ & _ & _ & _ & Hsecondary).
  split; [apply Hprimary; reflexivity|].
  split; [apply Hshare; reflexivity|].
  rewrite (Hsecondary Scenario.primary eq_refl). reflexivity.
Defined.

(** C5: when the library destination is [libDest], the destination of the
    entry point [entryPointDest] and the module file name prints as [stem],
    the metadata and the declarations are [entryPointDest] joined with the
    stem and an extension; [esm2015] is [libDest], ["esm2015"], the
    source-relative path and the stem; [fesm2015] and the two UMD bundles
    are [libDest], ["fesm2015"] or ["bundles"], and the stem, so two entry
    points with the same library destination and module file name get the
    same three paths wherever their sources are.  For the secondary entry
    point at [/lib/testing] below the primary one, [esm2015] is
    ["/lib/dist/esm2015/testing/acme-widgets-testing.js"]. *)
Theorem destinationFiles_layout :
  (forall (host : PathModule) (e : NgEntryPoint)
          (libDest entryPointDest stem : string) (moduleFileName : JsValue),
      libraryDestinationPath e = Normal libDest ->
      destinationPath e = Normal entryPointDest ->
      flatModuleFile e = Normal moduleFileName ->
      to_string moduleFileName = Normal stem ->
      destinationFiles e = Normal {|
        metadata := path_join [entryPointDest; stem ++ ".metadata.json"];
        declarations := path_join [entryPointDest; stem ++ ".d.ts"];
        esm2015 := path_join [libDest; "esm2015"; sourceRelativePath e;
                              stem ++ ".js"];
        fesm2015 := path_join [libDest; "fesm2015"; stem ++ ".js"];
        umd := path_join [libDest; "bundles"; stem ++ ".umd.js"];
        umdMinified := path_join [libDest; "bundles"; stem ++ ".umd.min.js"]
      |})
  /\ (forall (host : PathModule) (e1 e2 : NgEntryPoint)
             (files1 files2 : DestinationFiles),
      libraryDestinationPath e1 = libraryDestinationPath e2 ->
      flatModuleFile e1 = flatModuleFile e2 ->
      destinationFiles e1 = Normal files1 ->
      destinationFiles e2 = Normal files2 ->
      fesm2015 files1 = fesm2015 files2
      /\ umd files1 = umd files2
      /\ umdMinified files1 = umdMinified files2)
  /\ (forall cwd : string,
      @sourceRelativePath (posix cwd) Scenario.secondary = "testing"
      /\ @destinationPath (posix cwd) Scenario.secondary
         = Normal "/lib/dist/testing"
      /\ @flatModuleFile (posix cwd) Scenario.secondary
         = Normal (JStr "acme-widgets-testing")
      /\ exists files,
           @destinationFiles (posix cwd) Scenario.secondary = Normal files
           /\ esm2015 files
              = "/lib/dist/esm2015/testing/acme-widgets-testing.js"
           /\ fesm2015 files = "/lib/dist/fesm2015/acme-widgets-testing.js"
           /\ umd files = "/lib/dist/bundles/acme-widgets-testing.umd.js").
Proof.
  split; [|split].
  - intros host e libDest entryPointDest stem moduleFileName Hlib Hdest Hflat Hs.
    unfold destinationFiles. rewrite Hlib, Hdest, Hflat. simpl.
    rewrite Hs. reflexivity.
  - intros host e1 e2 files1 files2 Hlib Hflat H1 H2.
    unfold destinationFiles in H1, H2. rewrite <- Hlib, <- Hflat in H2.
    destruct (libraryDestinationPath e1) as [libDest|]; [|discriminate].
    destruct (destinationPath e1) as [dest1|]; [|discriminate].
    destruct (destinationPath e2) as [dest2|]; [|discriminate].
    destruct (flatModuleFile e1) as [v|]; [|discriminate].
    simpl in H1, H2.
    destruct (to_string v) as [stem|]; [|discriminate].
    simpl in H1, H2. injection H1 as <-. injection H2 as <-.
    repeat split.
  - intros cwd. repeat split.
    eexists. repeat split.
Qed.

Lemma destinationFiles_layout_witness :
  exists files,
    @destinationFiles (posix "/") Scenario.secondary = Normal files
    /\ metadata files = "/lib/dist/testing/acme-widgets-testing.metadata.json"
    /\ esm2015 files = "/lib/dist/esm2015/testing/acme-widgets-testing.js"
    /\ fesm2015 files = "/lib/dist/fesm2015/acme-widgets-testing.js".
Proof.
  eexists. split.
  - apply (proj1 destinationFiles_layout (posix "/") Scenario.secondary
             "/lib/dist" "/lib/dist/testing" "acme-widgets-testing"
             (JStr "acme-widgets-testing"));
      reflexivity.
  - repeat split.
Defined.

(** ** Overrides and defaults *)

(** C8, as the specification has it, fails: the empty string is a string
    value an option can be set to, and the accessors then return the
    derived defaults, not the configured value. *)
Lemma empty_override_not_returned :
  dollar_get Examples.emptyOverrides "lib.flatModuleFile" = Normal (JStr "")
  /\ @flatModuleFile (posix "/") Examples.emptyOverrides
     = Normal (JStr "scope-pkg")
  /\ @umdId (posix "/") Examples.emptyOverrides = Normal (JStr "scope.pkg")
  /\ @amdId (posix "/") Examples.emptyOverrides = Normal (JStr "@scope/pkg")
  /\ ~ (forall (host : PathModule) (e : NgEntryPoint) (s : string),
          dollar_get e "lib.flatModuleFile" = Normal (JStr s) ->
          flatModuleFile e = Normal (JStr s)).
Proof.
  repeat split.
  intros H.
  specialize (H (posix "/") Examples.emptyOverrides "" eq_refl).
  discriminate.
Qed.

(** C8, amended: an option set to a non-empty string is what the accessor
    returns, whatever the derived default would have been (it is not
    evaluated, so it cannot make the accessor raise); an option that is
    absent leaves the derived default. *)
Theorem override_precedence (host : PathModule) (e : NgEntryPoint) :
  (forall s, s <> "" ->
     (dollar_get e "lib.flatModuleFile" = Normal (JStr s) ->
      flatModuleFile e = Normal (JStr s))
     /\ (dollar_get e "lib.umdId" = Normal (JStr s) ->
         umdId e = Normal (JStr s))
     /\ (dollar_get e "lib.amdId" = Normal (JStr s) ->
         amdId e = Normal (JStr s)))
  /\ (dollar_get e "lib.flatModuleFile" = Normal JUndefined ->
      flatModuleFile e =
        (flat <- flattenModuleId e (Some "-") ;; Normal (JStr flat)))
  /\ (dollar_get e "lib.umdId" = Normal JUndefined ->
      umdId e = (flat <- flattenModuleId e None ;; Normal (JStr flat)))
  /\ (dollar_get e "lib.amdId" = Normal JUndefined -> amdId e = moduleId e).
Proof.
  split.
  - intros s Hs. pose proof (truthy_nonempty s Hs) as Ht.
    repeat split; intros H; eapply or_else_truthy; eassumption.
  - repeat split; intros H; eapply or_else_falsy; try eassumption;
      reflexivity.
Qed.

Lemma override_precedence_witness :
  @flatModuleFile (posix "/") Examples.overridden = Normal (JStr "bundle")
  /\ @umdId (posix "/") Examples.overridden = Normal (JStr "ng.bundle")
  /\ @amdId (posix "/") Examples.overridden = Normal (JStr "my/bundle")
  /\ throws (@flattenModuleId (posix "/") Examples.overridden (Some "-"))
  /\ @amdId (posix "/") Scenario.primary
     = @moduleId (posix "/") Scenario.primary.
Proof.
  destruct (override_precedence (posix "/") Examples.overridden) as [H _].
  destruct (override_precedence (posix "/") Scenario.primary)
    as (_ & _ & _ & Hamd).
  split; [apply (H "bundle"); [discriminate|reflexivity]|].
  split; [apply (H "ng.bundle"); [discriminate|reflexivity]|].
  split; [apply (H "my/bundle"); [discriminate|reflexivity]|].
  split; [exists TypeError; reflexivity|].
  apply Hamd. reflexivity.
Defined.

(** C10: an option set to the empty string, like any other falsy value, is
    passed over: the accessor evaluates and returns the derived default. *)
Theorem falsy_override_falls_back (host : PathModule) (e : NgEntryPoint) :
  (forall v, truthy v = false ->
     (dollar_get e "lib.flatModuleFile" = Normal v ->
      flatModuleFile e =
        (flat <- flattenModuleId e (Some "-") ;; Normal (JStr flat)))
     /\ (dollar_get e "lib.umdId" = Normal v ->
         umdId e = (flat <- flattenModuleId e None ;; Normal (JStr flat)))
     /\ (dollar_get e "lib.amdId" = Normal v -> amdId e = moduleId e))
  /\ (dollar_get e "lib.flatModuleFile" = Normal (JStr "") ->
      flatModuleFile e =
        (flat <- flattenModuleId e (Some "-") ;; Normal (JStr flat)))
  /\ (dollar_get e "lib.umdId" = Normal (JStr "") ->
      umdId e = (flat <- flattenModuleId e None ;; Normal (JStr flat)))
  /\ (dollar_get e "lib.amdId" = Normal (JStr "") -> amdId e = moduleId e).
Proof.
  assert (H : forall v, truthy v = false ->
     (dollar_get e "lib.flatModuleFile" = Normal v ->
      flatModuleFile e =
        (flat <- flattenModuleId e (Some "-") ;; Normal (JStr flat)))
     /\ (dollar_get e "lib.umdId" = Normal v ->
         umdId e = (flat <- flattenModuleId e None ;; Normal (JStr flat)))
     /\ (dollar_get e "lib.amdId" = Normal v -> amdId e = moduleId e)).
  { intros v Hv.
    repeat split; intros Hget; eapply or_else_falsy; eassumption. }
  split; [exact H|].
  exact (H (JStr "") eq_refl).
Qed.

Lemma falsy_override_falls_back_witness :
  dollar_get Examples.emptyOverrides "lib.flatModuleFile" = Normal (JStr "")
  /\ @flatModuleFile (posix "/") Examples.emptyOverrides
     = Normal (JStr "scope-pkg")
  /\ @umdId (posix "/") Examples.emptyOverrides = Normal (JStr "scope.pkg")
  /\ @amdId (posix "/") Examples.emptyOverrides = Normal (JStr "@scope/pkg").
Proof.
  destruct (falsy_override_falls_back (posix "/") Examples.emptyOverrides)
    as (_ & Hflat & Humd & Hamd).
  split; [reflexivity|].
  split; [rewrite (Hflat eq_refl); reflexivity|].
  split; [rewrite (Humd eq_refl); reflexivity|].
  rewrite (Hamd eq_refl); reflexivity.
Defined.

(** ** Side effects *)

(** C9: [sideEffects] is [false] when the manifest has no such field; a
    boolean or a list in that field is returned as it is, the empty list
    included, which is not [false]; so is any other truthy value. *)
Theorem sideEffects_default (e : NgEntryPoint) :
  (lookup "sideEffects" (packageJson e) = None ->
   sideEffects e = JBool false)
  /\ (forall b, lookup "sideEffects" (packageJson e) = Some (JBool b) ->
      sideEffects e = JBool b)
  /\ (forall elems, lookup "sideEffects" (packageJson e) = Some (JArr elems) ->
      sideEffects e = JArr elems)
  /\ (lookup "sideEffects" (packageJson e) = Some (JArr []) ->
      sideEffects e = JArr [] /\ sideEffects e <> JBool false)
  /\ (forall v, lookup "sideEffects" (packageJson e) = Some v ->
      truthy v = true -> sideEffects e = v).
Proof.
  unfold sideEffects, packageJson_at. simpl.
  split; [intros ->; reflexivity|].
  split; [intros [|] ->; reflexivity|].
  split; [intros elems ->; reflexivity|].
  split; [intros ->; split; [reflexivity|discriminate]|].
  intros v -> Hv. now rewrite Hv.
Qed.

Lemma sideEffects_default_witness :
  sideEffects Scenario.primary = JBool false
  /\ sideEffects Examples.emptySideEffects = JArr []
  /\ sideEffects Examples.emptySideEffects <> JBool false.
Proof.
  destruct (sideEffects_default Scenario.primary) as (Habsent & _).
  destruct (sideEffects_default Examples.emptySideEffects)
    as (_ & _ & _ & Hempty & _).
  split; [apply Habsent; reflexivity|].
  apply Hempty. reflexivity.
Defined.

(** ** Further facts about the lookups *)

(** On a configuration made of objects and non-null primitives [$get] is
    the lookup the specification describes. *)
Lemma dollar_get_descend (e : NgEntryPoint) (key : string) :
  plain (ngPackageJson e) = true ->
  dollar_get e key = Normal (descend (ngPackageJson e) (split dot key)).
Proof. apply get_loop_descend. Qed.

(** An array is an object to [typeof]: its indices and its [length] are
    own properties the lookup descends into. *)
Lemma dollar_get_array_length (pj : JsObject) (base : string) :
  dollar_get
    (mkNgEntryPoint pj
       (JObj [("lib", JObj [("styleIncludePaths", JArr [JStr "a"])])])
       base None)
    "lib.styleIncludePaths.length"
  = Normal (JNum 1).
Proof. reflexivity. Qed.

(** A field [sideEffects] that is present but falsy is not told apart from
    an absent one. *)
Lemma sideEffects_falsy (e : NgEntryPoint) (v : JsValue) :
  lookup "sideEffects" (packageJson e) = Some v ->
  truthy v = false -> sideEffects e = JBool false.
Proof.
  unfold sideEffects, packageJson_at. simpl. intros -> Hv. now rewrite Hv.
Qed.

(** A directory name may hold a backslash on a POSIX host; the relative
    path then has one and the module ID does not. *)
Lemma moduleId_backslash_directory (cwd : string) :
  let e := mkNgEntryPoint [] (JObj []) "/lib/sub\dir" (Some Scenario.primary) in
  @sourceRelativePath (posix cwd) e = "sub\dir"
  /\ @moduleId (posix cwd) e = Normal (JStr "@acme/widgets/sub/dir").
Proof. split; reflexivity. Qed.

(** * Further properties of the accessors *)

(** ** Splitting and joining *)

Lemma append_assoc (a b c : string) : (a ++ b) ++ c = a ++ b ++ c.
Proof. induction a as [|x a IH]; simpl; [reflexivity|now rewrite IH]. Qed.

Lemma split_append (c : ascii) (a b : string) :
  split c (a ++ String c b) = (split c a ++ split c b)%list.
Proof.
  induction a as [|x a IH]; simpl.
  - now rewrite Ascii.eqb_refl.
  - rewrite IH. destruct (Ascii.eqb x c); [reflexivity|].
    pose proof (split_nonempty c a) as Hne.
    destruct (split c a) as [|h t]; [contradiction|reflexivity].
Qed.

Lemma split_without_separator (c : ascii) (s : string) :
  contains c s = false -> split c s = [s].
Proof.
  induction s as [|x s IH]; simpl; [reflexivity|].
  intros H. apply orb_false_elim in H as [Hx Hs].
  now rewrite Hx, (IH Hs).
Qed.

Lemma join_split (c : ascii) (s : string) :
  join (String c "") (split c s) = s.
Proof.
  unfold join. induction s as [|x s IH]; simpl; [reflexivity|].
  pose proof (split_nonempty c s) as Hne.
  destruct (Ascii.eqb x c) eqn:E.
  - apply Ascii.eqb_eq in E. subst x.
    destruct (split c s) as [|h t]; [contradiction|].
    simpl in *. now rewrite IH.
  - destruct (split c s) as [|h [|h' t]]; [contradiction| |];
      simpl in *; now rewrite IH.
Qed.

Lemma split_parts_clean (c : ascii) (s : string) :
  Forall (fun part => contains c part = false) (split c s).
Proof.
  induction s as [|x s IH]; simpl.
  - now constructor.
  - destruct (Ascii.eqb x c) eqn:E.
    + constructor; [reflexivity|exact IH].
    + pose proof (split_nonempty c s) as Hne.
      destruct (split c s) as [|h t]; [contradiction|].
      inversion IH as [|? ? Hh Ht]; subst.
      constructor; [simpl; now rewrite E, Hh|exact Ht].
Qed.

Lemma join_clean (c : ascii) (sep : string) (parts : list string) :
  contains c sep = false ->
  Forall (fun part => contains c part = false) parts ->
  contains c (join sep parts) = false.
Proof.
  intros Hsep. unfold join.
  induction parts as [|h t IH]; intros H; simpl; [reflexivity|].
  inversion H as [|? ? Hh Ht]; subst.
  destruct t as [|h' t]; [exact Hh|].
  rewrite !contains_append, Hh, Hsep. simpl. now apply IH.
Qed.

Lemma replaceAll_append (from to : ascii) (a b : string) :
  replaceAll from to (a ++ b) = replaceAll from to a ++ replaceAll from to b.
Proof. induction a as [|x a IH]; simpl; [reflexivity|now rewrite IH]. Qed.

Lemma ensureUnixPath_idempotent (path : string) :
  ensureUnixPath (ensureUnixPath path) = ensureUnixPath path.
Proof. apply ensureUnixPath_unix, ensureUnixPath_no_backslash. Qed.

(** ** More on the configuration lookup *)

Lemma get_loop_undefined (parts : list string) :
  get_loop JUndefined parts = Normal JUndefined.
Proof. destruct parts; reflexivity. Qed.

Lemma get_loop_append (first rest : list string) :
  forall value,
    get_loop value (first ++ rest) =
      (reached <- get_loop value first ;; get_loop reached rest).
Proof.
  induction first as [|key first IH]; intros value; simpl; [reflexivity|].
  destruct (typeof value =? "object"); simpl;
    [|now rewrite get_loop_undefined].
  destruct (hasOwnProperty value key) as [[|]|err]; simpl;
    [apply IH|now rewrite get_loop_undefined|reflexivity].
Qed.

(** A dotted key is looked up one part after the other: the lookup of
    [first.rest] is the lookup of [rest] in whatever the lookup of [first]
    returned, and it raises when that one did. *)
Theorem dollar_get_composes
        (pj : JsObject) (cfg : JsValue) (base : string)
        (par : option NgEntryPoint) (first rest : string) :
  dollar_get (mkNgEntryPoint pj cfg base par) (first ++ "." ++ rest) =
    (reached <- dollar_get (mkNgEntryPoint pj cfg base par) first ;;
     dollar_get (mkNgEntryPoint pj reached base par) rest).
Proof.
  unfold dollar_get. simpl.
  change (String "." rest) with (String dot rest).
  rewrite split_append. apply get_loop_append.
Qed.

(** A configuration that is not an object at all ([undefined], a string, a
    number, a boolean) answers [undefined] to every key, the empty key
    included. *)
Theorem dollar_get_without_configuration (e : NgEntryPoint) (key : string) :
  typeof (ngPackageJson e) <> "object" ->
  dollar_get e key = Normal JUndefined.
Proof.
  intros Hty. unfold dollar_get.
  pose proof (split_nonempty dot key) as Hne.
  destruct (split dot key) as [|part parts]; [contradiction|].
  simpl. apply String.eqb_neq in Hty. now rewrite Hty.
Qed.

Lemma dollar_get_without_configuration_witness :
  dollar_get (mkNgEntryPoint [] JUndefined "/lib" None) "lib.entryFile"
  = Normal JUndefined
  /\ dollar_get (mkNgEntryPoint [] (JStr "lib") "/lib" None) "length"
     = Normal JUndefined.
Proof.
  split; apply dollar_get_without_configuration; simpl; discriminate.
Defined.

(** A key without a dot, the empty key included, names one property of the
    configuration object itself: the lookup gives its value, and
    [undefined] when the object has no such property.  The empty key does
    not stand for the configuration as a whole. *)
Theorem dollar_get_single_segment
        (e : NgEntryPoint) (props : JsObject) (key : string) :
  ngPackageJson e = JObj props ->
  has_key "hasOwnProperty" props = false ->
  contains dot key = false ->
  dollar_get e key =
    Normal match lookup key props with
           | Some v => v
           | None => JUndefined
           end.
Proof.
  intros Hcfg Hown Hkey. unfold dollar_get.
  rewrite Hcfg, (split_without_separator dot key Hkey). simpl.
  rewrite Hown. unfold has_key. simpl.
  destruct (lookup key props); reflexivity.
Qed.

Lemma dollar_get_single_segment_witness :
  dollar_get Scenario.primary "dest" = Normal (JStr "dist")
  /\ dollar_get Scenario.primary "" = Normal JUndefined.
Proof.
  split.
  - apply (dollar_get_single_segment Scenario.primary
             [("dest", JStr "dist");
              ("lib", JObj [("entryFile", JStr "index.ts")])] "dest");
      reflexivity.
  - apply (dollar_get_single_segment Scenario.primary
             [("dest", JStr "dist");
              ("lib", JObj [("entryFile", JStr "index.ts")])] "");
      reflexivity.
Defined.

Lemma dollar_get_descend_witness :
  dollar_get Scenario.primary "lib.entryFile" = Normal (JStr "index.ts")
  /\ dollar_get Scenario.primary "lib.entryFile.length" = Normal JUndefined
  /\ dollar_get Scenario.primary "lib.umdId" = Normal JUndefined.
Proof.
  split; [|split]; rewrite dollar_get_descend; reflexivity.
Defined.

(** ** More on the identifiers *)

Section IdentifierFacts.

Context {host : PathModule}.

Lemma flattenModuleId_inversion (e : NgEntryPoint)
      (separator : option string) (flat : string) :
  flattenModuleId e separator = Normal flat ->
  exists id,
    moduleId e = Normal (JStr id)
    /\ flat = join match separator with Some sep => sep | None => "." end
                   (split slash
                      (if startsWith id at_sign then substring 1 id else id)).
Proof.
  intros H.
  destruct (moduleId e) as [v|err] eqn:Eid.
  - destruct v as [| |b|n|id|elems|props];
      try (unfold flattenModuleId in H; rewrite Eid in H; discriminate).
    exists id. split; [reflexivity|].
    rewrite (flattenModuleId_string e id separator Eid) in H.
    now injection H as <-.
  - unfold flattenModuleId in H. rewrite Eid in H. discriminate.
Qed.

(** Whatever the module ID, the flattened identifier holds no ["/"] as long
    as the separator holds none: what [flatModuleFile] derives with ["-"]
    and [umdId] with ["."] never names a subdirectory. *)
Theorem flattenModuleId_without_slash
        (e : NgEntryPoint) (separator : option string) (flat : string) :
  contains slash match separator with Some sep => sep | None => "." end
    = false ->
  flattenModuleId e separator = Normal flat ->
  contains slash flat = false.
Proof.
  intros Hsep H.
  apply flattenModuleId_inversion in H as (id & _ & ->).
  apply join_clean; [exact Hsep|apply split_parts_clean].
Qed.

(** Flattening with ["/"] itself changes nothing but the leading ["@"],
    which it drops. *)
Theorem flattenModuleId_slash_separator (e : NgEntryPoint) (id : string) :
  moduleId e = Normal (JStr id) ->
  flattenModuleId e (Some "/") =
    Normal (if startsWith id at_sign then substring 1 id else id).
Proof.
  intros H. rewrite (flattenModuleId_string e id (Some "/") H).
  f_equal. apply (join_split slash).
Qed.

(** The scope marker leaves no trace: a scoped module ID and the same ID
    without its ["@"] flatten to the same identifier, so both packages get
    the same default file name and UMD identifier. *)
Theorem flattenModuleId_forgets_scope
        (scoped unscoped : NgEntryPoint) (id : string)
        (separator : option string) :
  startsWith id at_sign = false ->
  moduleId scoped = Normal (JStr ("@" ++ id)) ->
  moduleId unscoped = Normal (JStr id) ->
  flattenModuleId scoped separator = flattenModuleId unscoped separator.
Proof.
  intros Hat Hs Hu.
  rewrite (flattenModuleId_string scoped _ separator Hs),
    (flattenModuleId_string unscoped _ separator Hu).
  simpl. now rewrite Hat.
Qed.

(** [flatModuleFile] and [umdId] return either a truthy configured value
    or a derived string; they never return [undefined], [null], [false] or
    zero.  A derived value holds no ["/"]. *)
Theorem flat_identifiers_defined (e : NgEntryPoint) (v : JsValue) :
  (flatModuleFile e = Normal v ->
   (truthy v = true /\ dollar_get e "lib.flatModuleFile" = Normal v)
   \/ exists flat,
        v = JStr flat /\ contains slash flat = false
        /\ flattenModuleId e (Some "-") = Normal flat)
  /\ (umdId e = Normal v ->
      (truthy v = true /\ dollar_get e "lib.umdId" = Normal v)
      \/ exists flat,
           v = JStr flat /\ contains slash flat = false
           /\ flattenModuleId e None = Normal flat).
Proof.
  split; intros H.
  - unfold flatModuleFile, or_else in H.
    destruct (dollar_get e "lib.flatModuleFile") as [w|]; [|discriminate].
    simpl in H. destruct (truthy w) eqn:Ew.
    + injection H as <-. now left.
    + right.
      destruct (flattenModuleId e (Some "-")) as [flat|] eqn:Ef;
        [|discriminate].
      simpl in H. injection H as <-. exists flat.
      split; [reflexivity|]. split; [|reflexivity].
      now apply (flattenModuleId_without_slash e (Some "-")).
  - unfold umdId, or_else in H.
    destruct (dollar_get e "lib.umdId") as [w|]; [|discriminate].
    simpl in H. destruct (truthy w) eqn:Ew.
    + injection H as <-. now left.
    + right.
      destruct (flattenModuleId e None) as [flat|] eqn:Ef; [|discriminate].
      simpl in H. injection H as <-. exists flat.
      split; [reflexivity|]. split; [|reflexivity].
      now apply (flattenModuleId_without_slash e None).
Qed.

Lemma ensureUnixPath_append (a b : string) :
  ensureUnixPath (a ++ b) = ensureUnixPath a ++ ensureUnixPath b.
Proof. apply replaceAll_append. Qed.

(** Below a root whose [name] is a string, every module ID is that name,
    with its backslashes turned, a ["/"], and a rest without backslashes:
    the identifiers of a tree all start with the package name. *)
Theorem moduleId_starts_with_name (e : NgEntryPoint) (name : string) :
  packageJson_at (root e) "name" = JStr name ->
  (parent e = None /\ moduleId e = Normal (JStr name))
  \/ (parent e <> None
      /\ exists rest,
           moduleId e = Normal (JStr (ensureUnixPath name ++ "/" ++ rest))
           /\ contains backslash rest = false).
Proof.
  induction e as [pj cfg base|pj cfg base p IH] using NgEntryPoint_chain_ind;
    intros Hname.
  - left. split; [reflexivity|]. simpl in *. now rewrite <- Hname.
  - right. split; [discriminate|].
    rewrite moduleId_child.
    destruct (IH Hname) as [[_ Hp]|[_ (rest & Hp & Hrest)]]; rewrite Hp;
      cbn [bind to_string].
    + exists (ensureUnixPath (path_relative (basePath p) base)).
      split; [|apply ensureUnixPath_no_backslash].
      now rewrite (ensureUnixPath_append name),
        (ensureUnixPath_append "/").
    + exists (rest ++ "/" ++ ensureUnixPath (path_relative (basePath p) base)).
      split.
      * rewrite (ensureUnixPath_append (ensureUnixPath name ++ "/" ++ rest)),
          (ensureUnixPath_append (ensureUnixPath name)),
          (ensureUnixPath_append "/" rest),
          (ensureUnixPath_append "/" (path_relative (basePath p) base)),
          ensureUnixPath_idempotent, (ensureUnixPath_unix rest Hrest).
        change (ensureUnixPath "/") with "/".
        now rewrite !append_assoc.
      * rewrite contains_append, Hrest.
        rewrite (contains_append backslash "/"), ensureUnixPath_no_backslash.
        reflexivity.
Qed.

(** An entry point directly below a root without a [name] still gets a
    module ID, and no error: the text ["undefined"], a ["/"] and the
    source-relative path. *)
Theorem moduleId_below_nameless_root
        (pj : JsObject) (cfg : JsValue) (base : string) (p : NgEntryPoint) :
  parent p = None ->
  lookup "name" (packageJson p) = None ->
  moduleId (mkNgEntryPoint pj cfg base (Some p)) =
    Normal (JStr ("undefined/"
                  ++ ensureUnixPath (path_relative (basePath p) base))).
Proof.
  intros Hpar Hname.
  destruct p as [ppj pcfg pbase [pp|]]; [discriminate|].
  assert (Hid : moduleId (mkNgEntryPoint ppj pcfg pbase None)
                = Normal JUndefined).
  { simpl in *. unfold packageJson_at. simpl. now rewrite Hname. }
  rewrite moduleId_child, Hid. cbn [bind to_string].
  rewrite (ensureUnixPath_append "undefined"), (ensureUnixPath_append "/").
  reflexivity.
Qed.

(** Only an entry point without a parent is the root of its tree, and only
    it is not secondary; its source-relative path is empty. *)
Theorem isSecondaryEntryPoint_root (e : NgEntryPoint) :
  (isSecondaryEntryPoint e = false <-> root e = e)
  /\ isSecondaryEntryPoint (root e) = false
  /\ (isSecondaryEntryPoint e = false -> sourceRelativePath e = "").
Proof.
  split; [|split].
  - split.
    + destruct e as [pj cfg base [p|]]; [discriminate|reflexivity].
    + intros H. unfold isSecondaryEntryPoint.
      now rewrite <- H, root_parentless.
  - unfold isSecondaryEntryPoint. now rewrite root_parentless.
  - unfold isSecondaryEntryPoint, sourceRelativePath.
    destruct (parent e); [discriminate|reflexivity].
Qed.

End IdentifierFacts.

Lemma flattenModuleId_without_slash_witness :
  contains slash "acme-widgets-testing" = false.
Proof.
  apply (flattenModuleId_without_slash (host := posix "/")
           Scenario.secondary (Some "-") "acme-widgets-testing");
    reflexivity.
Defined.

Lemma flattenModuleId_slash_separator_witness :
  @flattenModuleId (posix "/") Scenario.secondary (Some "/")
  = Normal "acme/widgets/testing".
Proof.
  apply (flattenModuleId_slash_separator (host := posix "/")
           Scenario.secondary "@acme/widgets/testing").
  reflexivity.
Defined.

Lemma flattenModuleId_forgets_scope_witness :
  @flattenModuleId (posix "/") Examples.scoped (Some "-")
  = @flattenModuleId (posix "/")
      (mkNgEntryPoint [("name", JStr "scope/pkg/sub")] (JObj []) "/lib" None)
      (Some "-").
Proof.
  apply (flattenModuleId_forgets_scope (host := posix "/") _ _ "scope/pkg/sub");
    reflexivity.
Defined.

Lemma flat_identifiers_defined_witness :
  exists flat,
    JStr "acme-widgets-testing" = JStr flat /\ contains slash flat = false.
Proof.
  destruct (proj1 (flat_identifiers_defined (host := posix "/")
                     Scenario.secondary (JStr "acme-widgets-testing"))
                  eq_refl)
    as [[_ H]|(flat & Hv & Hflat & _)].
  - discriminate.
  - exists flat. now split.
Defined.

Lemma moduleId_starts_with_name_witness :
  exists rest,
    @moduleId (posix "/") MoreExamples.nested
    = Normal (JStr ("@acme/widgets" ++ "/" ++ rest)).
Proof.
  destruct (moduleId_starts_with_name (host := posix "/")
              MoreExamples.nested "@acme/widgets" eq_refl)
    as [[H _]|[_ (rest & H & _)]].
  - discriminate.
  - exists rest. exact H.
Defined.

Lemma moduleId_below_nameless_root_witness :
  @moduleId (posix "/") MoreExamples.belowNameless
  = Normal (JStr "undefined/testing").
Proof.
  apply (moduleId_below_nameless_root (host := posix "/")
           [] (JObj []) "/lib/testing" MoreExamples.nameless);
    reflexivity.
Defined.

(** ** More on the side-effects flag *)

(** The flag is [false] or a truthy value: a manifest cannot make the
    accessor return [undefined], [null], zero or the empty string.  It is
    [false] exactly when the manifest has no truthy value for it. *)
Theorem sideEffects_false_or_truthy (e : NgEntryPoint) :
  (sideEffects e = JBool false \/ truthy (sideEffects e) = true)
  /\ (sideEffects e = JBool false <->
      truthy (packageJson_at e "sideEffects") = false).
Proof.
  unfold sideEffects.
  destruct (truthy (packageJson_at e "sideEffects")) eqn:E.
  - split; [now right|]. split; [|discriminate].
    intros H. rewrite H in E. discriminate.
  - split; [now left|]. now split.
Qed.

Lemma sideEffects_false_or_truthy_witness :
  sideEffects Scenario.primary = JBool false
  /\ truthy (sideEffects Examples.emptySideEffects) = true.
Proof.
  split.
  - apply (proj2 (sideEffects_false_or_truthy Scenario.primary)).
    reflexivity.
  - destruct (proj1 (sideEffects_false_or_truthy Examples.emptySideEffects))
      as [H|H]; [discriminate|exact H].
Defined.

(** ** Style include paths *)

Section IncludePathFacts.

Context {host : PathModule}.

Lemma resolveIncludePaths_strings (base : string) (paths : list string) :
  resolveIncludePaths base (map JStr paths) =
    Normal (map (fun includePath =>
                   if path_isAbsolute includePath then includePath
                   else path_resolve [base; includePath])
                paths).
Proof.
  induction paths as [|includePath paths IH]; simpl; [reflexivity|].
  now rewrite IH.
Qed.

Lemma resolveIncludePaths_returns (base : string) (elems : list JsValue) :
  returns (resolveIncludePaths base elems) <->
  exists paths, elems = map JStr paths.
Proof.
  induction elems as [|v elems IH]; simpl.
  - split; [now exists []|intros _; apply returns_Normal].
  - split.
    + intros H. apply bind_returns in H as [s [Hs H]].
      apply bind_returns in H as [others [Ho _]].
      destruct v; try discriminate. injection Hs as ->.
      destruct (proj1 IH) as [paths ->]; [rewrite Ho; apply returns_Normal|].
      now exists (s :: paths).
    + intros [[|s paths] H]; [discriminate|].
      injection H as -> ->.
      rewrite resolveIncludePaths_strings. apply returns_Normal.
Qed.

(** What [styleIncludePaths] does with the value [$get] finds: a falsy one
    (the option is absent) gives the empty list; a list of strings gives
    one path for each, in the same order, an absolute one unchanged and
    any other resolved against the base path of the entry point; every
    other value raises a [TypeError] (a truthy value that is no list has
    no [map], a list with an element that is no string fails in
    [path.isAbsolute]). *)
Theorem styleIncludePaths_cases (e : NgEntryPoint) (v : JsValue) :
  dollar_get e "lib.styleIncludePaths" = Normal v ->
  (truthy v = false -> styleIncludePaths e = Normal [])
  /\ (forall paths, v = JArr (map JStr paths) ->
      styleIncludePaths e =
        Normal (map (fun includePath =>
                       if path_isAbsolute includePath then includePath
                       else path_resolve [basePath e; includePath])
                    paths))
  /\ (truthy v = true -> (forall elems, v <> JArr elems) ->
      styleIncludePaths e = Throw TypeError)
  /\ (returns (styleIncludePaths e) <->
      truthy v = false \/ exists paths, v = JArr (map JStr paths)).
Proof.
  intros Hget.
  assert (Hfalsy : truthy v = false -> styleIncludePaths e = Normal []).
  { intros Hv. unfold styleIncludePaths, or_else.
    rewrite Hget. simpl. now rewrite Hv. }
  assert (Hlist : forall elems, v = JArr elems ->
            styleIncludePaths e = resolveIncludePaths (basePath e) elems).
  { intros elems ->. unfold styleIncludePaths, or_else.
    now rewrite Hget. }
  assert (Hother : truthy v = true -> (forall elems, v <> JArr elems) ->
            styleIncludePaths e = Throw TypeError).
  { intros Hv Hno. unfold styleIncludePaths, or_else.
    rewrite Hget. simpl. rewrite Hv. simpl.
    destruct v as [| |b|n|s|elems|props]; try reflexivity.
    now contradiction (Hno elems). }
  split; [exact Hfalsy|]. split; [|split; [exact Hother|]].
  - intros paths Hv. rewrite (Hlist _ Hv).
    apply resolveIncludePaths_strings.
  - split.
    + intros Hret. destruct (truthy v) eqn:Hv; [right|now left].
      destruct v as [| |b|n|s|elems|props];
        try (exfalso; rewrite (Hother eq_refl) in Hret;
             [destruct Hret; discriminate|discriminate]).
      rewrite (Hlist elems eq_refl) in Hret.
      apply resolveIncludePaths_returns in Hret as [paths ->].
      now exists paths.
    + intros [Hv|[paths Hv]].
      * rewrite (Hfalsy Hv). apply returns_Normal.
      * rewrite (Hlist _ Hv), resolveIncludePaths_strings.
        apply returns_Normal.
Qed.

End IncludePathFacts.

Lemma styleIncludePaths_cases_witness :
  @styleIncludePaths (posix "/") MoreExamples.withIncludePaths
  = Normal ["/lib/styles"; "/shared/styles"]
  /\ @styleIncludePaths (posix "/") Scenario.primary = Normal [].
Proof.
  split.
  - apply (proj1 (proj2 (styleIncludePaths_cases (host := posix "/")
                           MoreExamples.withIncludePaths
                           (JArr [JStr "styles"; JStr "/shared/styles"])
                           eq_refl))
                 ["styles"; "/shared/styles"]).
    reflexivity.
  - apply (proj1 (styleIncludePaths_cases (host := posix "/")
                    Scenario.primary JUndefined eq_refl)).
    reflexivity.
Defined.

(** ** Paths on a POSIX host *)

Lemma startsWith_append (a b : string) (c : ascii) :
  startsWith a c = true -> startsWith (a ++ b) c = true.
Proof. destruct a; simpl; [discriminate|easy]. Qed.

Lemma resolveLoop_absolute (fromRight : list string) :
  forall resolvedPath,
    existsb Posix.isAbsolute fromRight = true ->
    snd (Posix.resolveLoop fromRight resolvedPath) = true.
Proof.
  induction fromRight as [|path rest IH]; intros resolvedPath; simpl;
    [discriminate|].
  destruct (path =? "") eqn:Eempty.
  - apply String.eqb_eq in Eempty. subst path. simpl. apply IH.
  - destruct (Posix.isAbsolute path); simpl; [reflexivity|apply IH].
Qed.

(** With an absolute working directory [path.resolve] gives an absolute
    path, whatever its arguments. *)
Lemma posix_resolve_absolute (cwd : string) (args : list string) :
  Posix.isAbsolute cwd = true ->
  Posix.isAbsolute (Posix.resolve cwd args) = true.
Proof.
  intros Hcwd. unfold Posix.resolve.
  pose proof (resolveLoop_absolute (rev args ++ [cwd]) "") as H.
  destruct (Posix.resolveLoop (rev args ++ [cwd]) "") as [resolved absolute].
  simpl in H. rewrite H; [reflexivity|].
  rewrite existsb_app. simpl. rewrite Hcwd. now rewrite orb_true_r.
Qed.

Lemma posix_normalize_absolute (path : string) :
  Posix.isAbsolute path = true ->
  Posix.isAbsolute (Posix.normalize path) = true.
Proof.
  intros H. unfold Posix.normalize.
  destruct path as [|a path]; [discriminate|].
  change (String a path =? "") with false. cbv iota. rewrite H.
  destruct (Posix.normalizeString (String a path) (negb true) =? "");
    [reflexivity|].
  destruct (Posix.endsWithSlash (String a path)); reflexivity.
Qed.

(** [path.join] gives an absolute path when its first argument is one. *)
Lemma posix_join_absolute (first : string) (others : list string) :
  Posix.isAbsolute first = true ->
  Posix.isAbsolute (Posix.joinPaths (first :: others)) = true.
Proof.
  intros H. unfold Posix.joinPaths. simpl.
  destruct first as [|a first]; [discriminate|].
  change (negb (String a first =? "")) with true. cbv iota.
  apply posix_normalize_absolute.
  unfold join. simpl.
  destruct (filter (fun arg => negb (arg =? "")) others); [exact H|].
  exact H.
Qed.

(** On a POSIX host with an absolute working directory, every path the
    entry point returns is absolute: the entry file, the library
    destination, the destination of the entry point and the six
    destination files. *)
Theorem posix_paths_absolute (cwd : string) (e : NgEntryPoint) :
  Posix.isAbsolute cwd = true ->
  (forall p, @entryFilePath (posix cwd) e = Normal p ->
             Posix.isAbsolute p = true)
  /\ (forall p, @libraryDestinationPath (posix cwd) e = Normal p ->
                Posix.isAbsolute p = true)
  /\ (forall p, @destinationPath (posix cwd) e = Normal p ->
                Posix.isAbsolute p = true)
  /\ (forall files, @destinationFiles (posix cwd) e = Normal files ->
        Posix.isAbsolute (declarations files) = true
        /\ Posix.isAbsolute (metadata files) = true
        /\ Posix.isAbsolute (fesm2015 files) = true
        /\ Posix.isAbsolute (esm2015 files) = true
        /\ Posix.isAbsolute (umd files) = true
        /\ Posix.isAbsolute (umdMinified files) = true).
Proof.
  intros Hcwd.
  assert (Hlib : forall p, @libraryDestinationPath (posix cwd) e = Normal p ->
                           Posix.isAbsolute p = true).
  { intros p. rewrite libraryDestinationPath_unfold.
    destruct (dollar_get (root e) "dest") as [v|]; [|discriminate].
    destruct v; try discriminate. simpl. intros [= <-].
    now apply posix_resolve_absolute. }
  assert (Hdest : forall p, @destinationPath (posix cwd) e = Normal p ->
                            Posix.isAbsolute p = true).
  { intros p. unfold destinationPath.
    destruct (parent e); [|apply Hlib].
    destruct (libraryDestinationPath e) as [libDest|] eqn:E; [|discriminate].
    simpl. intros [= <-]. apply posix_join_absolute. now apply Hlib. }
  split; [|split; [exact Hlib|split; [exact Hdest|]]].
  - intros p. unfold entryFilePath.
    destruct (entryFile e) as [v|]; [|discriminate].
    destruct v; try discriminate. simpl. intros [= <-].
    now apply posix_resolve_absolute.
  - intros files. unfold destinationFiles.
    destruct (libraryDestinationPath e) as [libDest|] eqn:El; [|discriminate].
    destruct (destinationPath e) as [entryPointDest|] eqn:Ed; [|discriminate].
    destruct (flatModuleFile e) as [v|]; [|discriminate].
    simpl. destruct (to_string v) as [stem|]; [|discriminate].
    simpl. intros [= <-]. simpl.
    specialize (Hlib libDest eq_refl). specialize (Hdest entryPointDest eq_refl).
    repeat split; now apply posix_join_absolute.
Qed.

Lemma posix_paths_absolute_witness :
  Posix.isAbsolute "/lib/testing/index.ts" = true
  /\ Posix.isAbsolute "/lib/dist/testing" = true.
Proof.
  destruct (posix_paths_absolute "/" Scenario.secondary eq_refl)
    as (Hentry & _ & Hdest & _).
  split; [apply Hentry|apply Hdest]; reflexivity.
Defined.

(** On a POSIX host with an absolute working directory every style include
    path returned is absolute. *)
Theorem posix_styleIncludePaths_absolute
        (cwd : string) (e : NgEntryPoint) (paths : list string) :
  Posix.isAbsolute cwd = true ->
  @styleIncludePaths (posix cwd) e = Normal paths ->
  Forall (fun includePath => Posix.isAbsolute includePath = true) paths.
Proof.
  intros Hcwd H.
  assert (Hres : forall elems resolved,
             @resolveIncludePaths (posix cwd) (basePath e) elems
             = Normal resolved ->
             Forall (fun p => Posix.isAbsolute p = true) resolved).
  { induction elems as [|v elems IH]; simpl; intros resolved Hr.
    - injection Hr as <-. constructor.
    - destruct v; try discriminate. simpl in Hr.
      destruct (@resolveIncludePaths (posix cwd) (basePath e) elems)
        as [others|]; [|discriminate].
      simpl in Hr. injection Hr as <-.
      constructor; [|now apply IH].
      destruct (Posix.isAbsolute s) eqn:Es; [exact Es|].
      now apply posix_resolve_absolute. }
  unfold styleIncludePaths, or_else in H.
  destruct (dollar_get e "lib.styleIncludePaths") as [v|]; [|discriminate].
  simpl in H. destruct (truthy v).
  - simpl in H. destruct v; try discriminate. now apply (Hres elems).
  - simpl in H. injection H as <-. constructor.
Qed.

Lemma posix_styleIncludePaths_absolute_witness :
  Forall (fun includePath => Posix.isAbsolute includePath = true)
         ["/lib/styles"; "/shared/styles"].
Proof.
  apply (posix_styleIncludePaths_absolute "/" MoreExamples.withIncludePaths);
    reflexivity.
Defined.

(** On a POSIX host the empty source-relative path of a parentless entry
    point leaves no trace: its [esm2015] file is the library destination,
    ["esm2015"] and the file name, and its metadata and declarations are in
    the library destination itself. *)
Theorem posix_parentless_destinationFiles
        (cwd : string) (e : NgEntryPoint) (files : DestinationFiles) :
  parent e = None ->
  @destinationFiles (posix cwd) e = Normal files ->
  exists libDest moduleFileName stem,
    @libraryDestinationPath (posix cwd) e = Normal libDest
    /\ @flatModuleFile (posix cwd) e = Normal moduleFileName
    /\ to_string moduleFileName = Normal stem
    /\ esm2015 files = Posix.joinPaths [libDest; "esm2015"; stem ++ ".js"]
    /\ metadata files = Posix.joinPaths [libDest; stem ++ ".metadata.json"]
    /\ declarations files = Posix.joinPaths [libDest; stem ++ ".d.ts"].
Proof.
  intros Hpar H. unfold destinationFiles, destinationPath, sourceRelativePath in H.
  rewrite Hpar in H.
  destruct (libraryDestinationPath e) as [libDest|] eqn:El; [|discriminate].
  simpl in H.
  destruct (flatModuleFile e) as [v|] eqn:Ev; [|discriminate].
  simpl in H. destruct (to_string v) as [stem|] eqn:Es; [|discriminate].
  simpl in H. injection H as <-.
  exists libDest, v, stem.
  split; [reflexivity|]. split; [reflexivity|]. split; [exact Es|].
  split; [|split; reflexivity].
  unfold Posix.joinPaths. simpl. reflexivity.
Qed.

Lemma posix_parentless_destinationFiles_witness :
  exists files,
    @destinationFiles (posix "/") Scenario.primary = Normal files
    /\ esm2015 files = "/lib/dist/esm2015/acme-widgets.js".
Proof.
  destruct (@destinationFiles (posix "/") Scenario.primary)
    as [files|] eqn:E; [|discriminate].
  exists files. split; [reflexivity|].
  destruct (posix_parentless_destinationFiles "/" Scenario.primary files
              eq_refl E)
    as (libDest & v & stem & Hl & Hv & Hs & Hesm & _).
  injection Hl as <-. injection Hv as <-. injection Hs as <-.
  exact Hesm.
Defined.

(** ** When the module ID of a secondary entry point raises *)

Section SecondaryModuleId.

Context {host : PathModule}.

Lemma moduleId_below (e : NgEntryPoint) :
  (parent e = None
   /\ moduleId e = Normal (packageJson_at (root e) "name"))
  \/ (parent e <> None
      /\ (returns (moduleId e) <->
          returns (to_string (packageJson_at (root e) "name")))
      /\ forall v, moduleId e = Normal v ->
           exists id, v = JStr id /\ contains backslash id = false).
Proof.
  induction e as [pj cfg base|pj cfg base p IH] using NgEntryPoint_chain_ind.
  - left. now split.
  - right. split; [discriminate|].
    rewrite moduleId_child.
    change (root (mkNgEntryPoint pj cfg base (Some p))) with (root p).
    destruct IH as [[_ Hp]|[_ [Hiff Hstr]]].
    + rewrite Hp. cbn [bind].
      destruct (to_string (packageJson_at (root p) "name")) as [s|err];
        cbn [bind].
      * split; [split; intros _; apply returns_Normal|].
        intros v [= <-]. eexists. split; [reflexivity|].
        apply ensureUnixPath_no_backslash.
      * split; [split; intros [x Hx]; discriminate|discriminate].
    + destruct (moduleId p) as [v|err] eqn:Ep; cbn [bind].
      * destruct (Hstr v eq_refl) as (id & -> & _). cbn [bind to_string].
        split.
        -- split; intros _; [apply Hiff|]; apply returns_Normal.
        -- intros v [= <-]. eexists. split; [reflexivity|].
           apply ensureUnixPath_no_backslash.
      * split; [|discriminate].
        rewrite <- Hiff. split; intros [x Hx]; discriminate.
Qed.

(** The module ID of an entry point with a parent is a string without
    backslashes whenever it returns, and it returns exactly when the [name]
    of the root converts to a string.  So it returns when the root has no
    [name] or has [null], a boolean, a number or a string for one, and
    when the [name] is an object without an own [toString]; a [name] that
    is a list returns exactly when the list prints. *)
Theorem moduleId_secondary (e : NgEntryPoint) :
  parent e <> None ->
  (returns (moduleId e) <->
   returns (to_string (packageJson_at (root e) "name")))
  /\ (forall v, moduleId e = Normal v ->
       exists id, v = JStr id /\ contains backslash id = false)
  /\ (lookup "name" (packageJson (root e)) = None -> returns (moduleId e))
  /\ ((forall elems, packageJson_at (root e) "name" <> JArr elems) ->
      (forall props, packageJson_at (root e) "name" <> JObj props) ->
      returns (moduleId e))
  /\ (forall props, packageJson_at (root e) "name" = JObj props ->
      (returns (moduleId e) <-> has_key "toString" props = false)).
Proof.
  intros Hpar. destruct (moduleId_below e) as [[H _]|[_ [Hiff Hstr]]];
    [contradiction|].
  split; [exact Hiff|]. split; [exact Hstr|]. split; [|split].
  - intros Hname. apply Hiff. unfold packageJson_at. simpl.
    rewrite Hname. apply returns_Normal.
  - intros Harr Hobj. apply Hiff.
    destruct (packageJson_at (root e) "name") as [| |[|]|n|s|elems|props];
      try apply returns_Normal.
    + now contradiction (Harr elems).
    + now contradiction (Hobj props).
  - intros props Hname. rewrite Hiff, Hname. simpl.
    destruct (has_key "toString" props); split; intros H;
      try reflexivity; try apply returns_Normal.
    + destruct H; discriminate.
    + discriminate.
Qed.

End SecondaryModuleId.

Lemma moduleId_secondary_witness :
  returns (@moduleId (posix "/") MoreExamples.belowNameless)
  /\ returns (@moduleId (posix "/") Scenario.secondary).
Proof.
  split.
  - destruct (moduleId_secondary (host := posix "/")
                MoreExamples.belowNameless) as (_ & _ & Hnameless & _);
      [discriminate|].
    apply Hnameless. reflexivity.
  - destruct (moduleId_secondary (host := posix "/") Scenario.secondary)
      as (_ & _ & _ & Hprimitive & _); [discriminate|].
    apply Hprimitive; discriminate.
Defined.

(** ** Which accessors return, and when *)

Lemma returns_or_raises {A : Type} (c : Completion A) :
  returns c \/ c = Throw TypeError.
Proof. destruct c as [a|[]]; [left; apply returns_Normal|now right]. Qed.

Lemma or_else_returns (a b : Completion JsValue) :
  returns (or_else a b) <->
  exists v, a = Normal v /\ (truthy v = true \/ returns b).
Proof.
  unfold or_else. destruct a as [v|err]; simpl.
  - destruct (truthy v) eqn:Ev; split.
    + intros _. exists v. split; [reflexivity|now left].
    + intros _. apply returns_Normal.
    + intros H. exists v. split; [reflexivity|now right].
    + intros (w & [= <-] & [Hw|Hb]); [congruence|exact Hb].
  - split; [intros [x H]; discriminate|intros (v & H & _); discriminate].
Qed.

(** A lookup stops with [undefined] at the first segment that is not an own
    property of the value reached, or when that value is not an object. *)
Lemma get_loop_unsatisfied
      (value reached : JsValue) (first rest : list string) (segment : string) :
  get_loop value first = Normal reached ->
  typeof reached <> "object" \/ hasOwnProperty reached segment = Normal false ->
  get_loop value (first ++ segment :: rest) = Normal JUndefined.
Proof.
  intros Hreached Hstop. rewrite get_loop_append, Hreached. simpl.
  destruct Hstop as [Hty|Hown].
  - apply String.eqb_neq in Hty. now rewrite Hty.
  - rewrite Hown. simpl. now destruct (typeof reached =? "object").
Qed.

Section ReturnConditions.

Context {host : PathModule}.

Lemma flattened_returns (e : NgEntryPoint) (separator : option string) :
  returns (flat <- flattenModuleId e separator ;; Normal (JStr flat)) <->
  exists id, moduleId e = Normal (JStr id).
Proof.
  split.
  - intros H. apply bind_returns in H as (flat & Hflat & _).
    apply flattenModuleId_inversion in Hflat as (id & Hid & _).
    now exists id.
  - intros [id Hid]. rewrite (flattenModuleId_string e id separator Hid).
    apply returns_Normal.
Qed.

Lemma moduleId_returns (e : NgEntryPoint) :
  returns (moduleId e) <->
  parent e = None \/ returns (to_string (packageJson_at (root e) "name")).
Proof.
  destruct (moduleId_below e) as [[Hpar Hid]|[Hpar [Hiff _]]].
  - split; [now left|]. intros _. rewrite Hid. apply returns_Normal.
  - rewrite Hiff. split; [now right|]. now intros [H|H].
Qed.

Lemma styleIncludePaths_returns (e : NgEntryPoint) :
  returns (styleIncludePaths e) <->
  exists v,
    dollar_get e "lib.styleIncludePaths" = Normal v
    /\ (truthy v = false \/ exists paths, v = JArr (map JStr paths)).
Proof.
  unfold styleIncludePaths, or_else.
  destruct (dollar_get e "lib.styleIncludePaths") as [v|err]; simpl.
  - destruct (truthy v) eqn:Ev; simpl.
    + destruct v as [| |b|n|s|elems|props];
        try (split;
             [intros [x H]; discriminate
             |intros (w & [= <-] & [H|[paths H]]); congruence]).
      rewrite resolveIncludePaths_returns. split.
      * intros [paths ->]. eexists. split; [reflexivity|].
        right. now exists paths.
      * intros (w & [= <-] & [H|[paths [= ->]]]); [congruence|].
        now exists paths.
    + split; [|intros _; apply returns_Normal].
      intros _. exists v. split; [reflexivity|now left].
  - split; [intros [x H]; discriminate|intros (v & H & _); discriminate].
Qed.

End ReturnConditions.

(** C1, amended: which accessors return, and when; a completion that does
    not return raises a [TypeError].
    - [$get] returns for every key on a configuration without [null] and
      without an own [hasOwnProperty], and it returns [undefined] whenever
      a segment of the key is not an own property of the value reached, or
      that value is not an object.
    - [moduleId] of a parentless entry point returns the [name] of the
      manifest, [undefined] when there is none; [moduleId] returns exactly
      when the entry point is parentless or the [name] of the root
      converts to a string.
    - [amdId] returns exactly when its lookup returns and the option is
      truthy or [moduleId] returns; [flatModuleFile] and [umdId] return
      exactly when their lookup returns and the option is truthy or
      [moduleId] is a string.  So on a parentless entry point whose
      configuration [$get] can walk, [moduleId] and [amdId] always return,
      also without a [name].
    - [entryFilePath] returns exactly when [lib.entryFile] is a string,
      [libraryDestinationPath] and [destinationPath] exactly when the
      [dest] of the root is a string.
    - [styleIncludePaths] returns exactly when its lookup returns a falsy
      value, for which the result is the empty list, or a list of strings.
    - [destinationFiles] returns exactly when the library destination does
      and the module file name converts to a string. *)
Theorem accessors_return_conditions (host : PathModule) (e : NgEntryPoint) :
  (forall (A : Type) (c : Completion A), returns c \/ c = Throw TypeError)
  /\ (tame (ngPackageJson e) = true -> forall key, returns (dollar_get e key))
  /\ (forall key first segment rest reached,
        split dot key = (first ++ segment :: rest)%list ->
        get_loop (ngPackageJson e) first = Normal reached ->
        typeof reached <> "object"
        \/ hasOwnProperty reached segment = Normal false ->
        dollar_get e key = Normal JUndefined)
  /\ (parent e = None -> moduleId e = Normal (packageJson_at e "name"))
  /\ (lookup "name" (packageJson e) = None ->
      packageJson_at e "name" = JUndefined)
  /\ (returns (moduleId e) <->
      parent e = None
      \/ returns (to_string (packageJson_at (root e) "name")))
  /\ (returns (amdId e) <->
      exists v, dollar_get e "lib.amdId" = Normal v
                /\ (truthy v = true \/ returns (moduleId e)))
  /\ (returns (flatModuleFile e) <->
      exists v, dollar_get e "lib.flatModuleFile" = Normal v
                /\ (truthy v = true
                    \/ exists id, moduleId e = Normal (JStr id)))
  /\ (returns (umdId e) <->
      exists v, dollar_get e "lib.umdId" = Normal v
                /\ (truthy v = true
                    \/ exists id, moduleId e = Normal (JStr id)))
  /\ (tame (ngPackageJson e) = true -> parent e = None ->
      returns (moduleId e) /\ returns (amdId e))
  /\ (returns (entryFilePath e) <-> exists s, entryFile e = Normal (JStr s))
  /\ (returns (libraryDestinationPath e) <->
      exists s, dollar_get (root e) "dest" = Normal (JStr s))
  /\ (returns (destinationPath e) <->
      exists s, dollar_get (root e) "dest" = Normal (JStr s))
  /\ (returns (styleIncludePaths e) <->
      exists v, dollar_get e "lib.styleIncludePaths" = Normal v
                /\ (truthy v = false
                    \/ exists paths, v = JArr (map JStr paths)))
  /\ (forall v, dollar_get e "lib.styleIncludePaths" = Normal v ->
      truthy v = false -> styleIncludePaths e = Normal [])
  /\ (returns (destinationFiles e) <->
      returns (libraryDestinationPath e)
      /\ exists v s, flatModuleFile e = Normal v /\ to_string v = Normal s).
Proof.
  assert (Hlib : returns (libraryDestinationPath e) <->
                 exists s, dollar_get (root e) "dest" = Normal (JStr s)).
  { rewrite libraryDestinationPath_unfold.
    destruct (dollar_get (root e) "dest") as [v|err]; simpl.
    - destruct v; simpl; split; intros [x H]; try discriminate;
        eauto using returns_Normal.
    - split; intros [x H]; discriminate. }
  assert (Hamd : returns (amdId e) <->
                 exists v, dollar_get e "lib.amdId" = Normal v
                           /\ (truthy v = true \/ returns (moduleId e))).
  { apply or_else_returns. }
  assert (Hflat : forall key separator,
            returns (or_else (dollar_get e key)
                       (flat <- flattenModuleId e separator ;;
                        Normal (JStr flat))) <->
            exists v, dollar_get e key = Normal v
                      /\ (truthy v = true
                          \/ exists id, moduleId e = Normal (JStr id))).
  { intros key separator. rewrite or_else_returns.
    split; intros (v & Hv & [Ht|Hd]); exists v; (split; [exact Hv|]);
      try (now left); right; now apply (flattened_returns e separator). }
  split; [intros A c; apply returns_or_raises|].
  split; [intros Ht key; apply get_loop_returns, Ht|].
  split.
  { intros key first segment rest reached Hsplit Hreached Hstop.
    unfold dollar_get. rewrite Hsplit.
    now apply (get_loop_unsatisfied _ reached). }
  split; [destruct e as [pj cfg base [p|]]; [discriminate|reflexivity]|].
  split; [unfold packageJson_at; simpl; now intros ->|].
  split; [apply moduleId_returns|].
  split; [exact Hamd|].
  split; [apply (Hflat "lib.flatModuleFile" (Some "-"))|].
  split; [apply (Hflat "lib.umdId" None)|].
  split.
  { intros Ht Hpar.
    assert (Hid : returns (moduleId e)) by (apply moduleId_returns; now left).
    split; [exact Hid|].
    apply Hamd. destruct (get_loop_returns (split dot "lib.amdId") _ Ht)
      as [v Hv].
    exists v. split; [exact Hv|now right]. }
  split.
  { unfold entryFilePath.
    destruct (entryFile e) as [v|err]; simpl.
    - destruct v; simpl; split; intros [x H]; try discriminate;
        eauto using returns_Normal.
    - split; intros [x H]; discriminate. }
  split; [exact Hlib|].
  split; [rewrite <- Hlib; apply destinationPath_returns|].
  split; [apply styleIncludePaths_returns|].
  split.
  { intros v Hv Hfalsy. unfold styleIncludePaths, or_else.
    rewrite Hv. simpl. now rewrite Hfalsy. }
  apply destinationFiles_returns.
Qed.

Lemma accessors_return_conditions_witness :
  tame (ngPackageJson Examples.bare) = true
  /\ (forall key, returns (dollar_get Examples.bare key))
  /\ dollar_get Examples.bare "lib.entryFile" = Normal JUndefined
  /\ returns (@moduleId (posix "/") Examples.bare)
  /\ returns (@amdId (posix "/") Examples.bare)
  /\ @styleIncludePaths (posix "/") Examples.bare = Normal []
  /\ returns (@entryFilePath (posix "/") Scenario.primary)
  /\ returns (@libraryDestinationPath (posix "/") Scenario.primary)
  /\ returns (@flatModuleFile (posix "/") Scenario.primary)
  /\ returns (@destinationFiles (posix "/") Scenario.primary).
Proof.
  destruct (accessors_return_conditions (posix "/") Examples.bare)
    as (_ & Hget & Hundef & _ & _ & _ & _ & _ & _ & Hbare & _ & _ & _ & _
        & Hstyle & _).
  destruct (accessors_return_conditions (posix "/") Scenario.primary)
    as (_ & _ & _ & _ & _ & _ & _ & Hflat & _ & _ & Hentry & Hlib & _ & _
        & _ & Hfiles).
  assert (Ht : tame (ngPackageJson Examples.bare) = true) by reflexivity.
  assert (Hl : returns (@libraryDestinationPath (posix "/") Scenario.primary)).
  { apply Hlib. exists "dist". reflexivity. }
  split; [exact Ht|].
  split; [exact (Hget Ht)|].
  split.
  { apply (Hundef "lib.entryFile" [] "lib" ["entryFile"] (JObj []));
      [reflexivity|reflexivity|now right]. }
  split; [apply (Hbare Ht eq_refl)|].
  split; [apply (Hbare Ht eq_refl)|].
  split; [apply (Hstyle JUndefined); reflexivity|].
  split; [apply Hentry; exists "index.ts"; reflexivity|].
  split; [exact Hl|].
  split.
  { apply Hflat. exists JUndefined. split; [reflexivity|].
    right. exists "@acme/widgets". reflexivity. }
  apply Hfiles. split; [exact Hl|].
  exists (JStr "acme-widgets"), "acme-widgets". split; reflexivity.
Defined.
